(** * The [serve] command of go-swagger: configuration resolution and
      handler composition ([cmd/swagger/commands/serve.go]).

    [ServeCmd.Execute] is embedded as a function in a small trace-and-error
    monad.  The calls it makes into the operating system and into its
    collaborators (specification loader, reference expansion, JSON encoder,
    TCP listener, HTTP server, browser launcher) are recorded as events and
    answered by a [World] of oracles; the string functions of Go's standard
    library that decide the computed values ([path.Join], [strings.Join],
    [strconv.Itoa], [net.JoinHostPort], [net.SplitHostPort]) are embedded
    as executable definitions. *)

From Stdlib Require Import ZArith List Bool Lia Sorted.
From Stdlib Require Import Strings.Ascii Strings.String.
Import ListNotations.

Open Scope string_scope.
Open Scope Z_scope.

(** ** Go strings *)

Module strings.

(** [strings.Join(elems, sep)]. *)
Fixpoint Join (elems : list string) (sep : string) : string :=
  match elems with
  | [] => ""
  | [e] => e
  | e :: rest => e ++ sep ++ Join rest sep
  end.

(** [len(s) > 0 && s[0] == c]. *)
Definition head_is (c : ascii) (s : string) : bool :=
  match s with
  | EmptyString => false
  | String a _ => Ascii.eqb a c
  end.

(** [s[1:]]. *)
Definition tail (s : string) : string :=
  match s with
  | EmptyString => ""
  | String _ s' => s'
  end.

(** [strings.IndexByte(s, c) >= 0]. *)
Fixpoint contains_byte (c : ascii) (s : string) : bool :=
  match s with
  | EmptyString => false
  | String a s' => if Ascii.eqb a c then true else contains_byte c s'
  end.

(** Splitting at the last occurrence of [c] (Go: [i := LastIndexByte(s, c)],
    then [s[:i]] and [s[i+1:]]); [None] when [c] does not occur. *)
Fixpoint split_last (c : ascii) (s : string) : option (string * string) :=
  match s with
  | EmptyString => None
  | String a s' =>
      match split_last c s' with
      | Some (h, t) => Some (String a h, t)
      | None => if Ascii.eqb a c then Some ("", s') else None
      end
  end.

(** Splitting at the first occurrence of [c]. *)
Fixpoint split_first (c : ascii) (s : string) : option (string * string) :=
  match s with
  | EmptyString => None
  | String a s' =>
      if Ascii.eqb a c then Some ("", s')
      else match split_first c s' with
           | Some (h, t) => Some (String a h, t)
           | None => None
           end
  end.

End strings.

(** ** [strconv]: decimal rendering and parsing of Go's [int] *)

Module strconv.

Definition minInt : Z := - 2 ^ 63.
Definition maxInt : Z := 2 ^ 63 - 1.

Definition digit_char (d : Z) : ascii := ascii_of_nat (48 + Z.to_nat d).

(** The digit loop of [formatBits]: digits are produced from the least
    significant one and written in front of what is already there. *)
Fixpoint format_digits (fuel : nat) (n : Z) (acc : string) : string :=
  match fuel with
  | O => acc
  | S fuel' =>
      let acc' := String (digit_char (n mod 10)) acc in
      if n <? 10 then acc' else format_digits fuel' (n / 10) acc'
  end.

(** An [int] has at most 19 decimal digits. *)
Definition format_uint (n : Z) : string := format_digits 19 n "".

(** [strconv.Itoa(i)], which is also what the verb [%d] prints. *)
Definition Itoa (i : Z) : string :=
  if i <? 0 then "-" ++ format_uint (- i) else format_uint i.

Definition digit_val (c : ascii) : option Z :=
  let n := Z.of_nat (nat_of_ascii c) in
  if (48 <=? n) && (n <=? 57) then Some (n - 48) else None.

(** The accumulation loop of [Atoi]: [n = n*10 + int(ch - '0')], a
    syntax error on any byte that is not a digit. *)
Fixpoint parse_digits (s : string) (n : Z) : option Z :=
  match s with
  | EmptyString => Some n
  | String ch s' =>
      match digit_val ch with
      | Some d => parse_digits s' (n * 10 + d)
      | None => None
      end
  end.

(** [strconv.Atoi(s)]: an optional sign, at least one digit, and a value
    that fits [int]; [None] stands for the syntax or range error. *)
Definition Atoi (s0 : string) : option Z :=
  let signed := strings.head_is "-" s0 || strings.head_is "+" s0 in
  let s := if signed then strings.tail s0 else s0 in
  if String.eqb s "" then None
  else match parse_digits s 0 with
       | Some n =>
           let n := if strings.head_is "-" s0 then - n else n in
           if (minInt <=? n) && (n <=? maxInt) then Some n else None
       | None => None
       end.

End strconv.

(** ** [path]: lexical path joining *)

Module path.

Definition slash : ascii := "/"%char.
Definition dot : ascii := "."%char.

(** The write buffer of [Clean] is kept reversed: appending a byte is a
    cons, and [out.w--] drops the head.  [w] is the length of the buffer. *)
Definition lazybuf := list ascii.

(** [for out.w > dotdot && out.index(out.w) != '/' { out.w-- }], entered
    after the first [out.w--]: the head of [out] is the byte at index [w],
    just past the kept part. *)
Fixpoint backtrack (out : lazybuf) (w dotdot : nat) : lazybuf :=
  match out with
  | [] => []
  | c :: out' =>
      if (dotdot <? w)%nat && negb (Ascii.eqb c slash)
      then backtrack out' (w - 1) dotdot
      else out'
  end.

(** [for ; r < n && path[r] != '/'; r++ { out.append(path[r]) }] *)
Fixpoint copy_element (p : list ascii) (out : lazybuf) : list ascii * lazybuf :=
  match p with
  | [] => ([], out)
  | c :: p' =>
      if Ascii.eqb c slash then (p, out) else copy_element p' (c :: out)
  end.

(** The main loop of [Clean]; [p] is what is left to read ([path[r:]]).
    Every iteration reads at least one byte, so [length p] iterations are
    enough. *)
Fixpoint clean_loop (fuel : nat) (rooted : bool) (p : list ascii)
    (out : lazybuf) (dotdot : nat) : lazybuf :=
  match fuel with
  | O => out
  | S fuel' =>
      match p with
      | [] => out
      | c :: p1 =>
          if Ascii.eqb c slash then
            (* empty path element *)
            clean_loop fuel' rooted p1 out dotdot
          else if Ascii.eqb c dot
                  && match p1 with [] => true | c1 :: _ => Ascii.eqb c1 slash end then
            (* . element *)
            clean_loop fuel' rooted p1 out dotdot
          else if Ascii.eqb c dot
                  && match p1 with
                     | c1 :: p2 =>
                         Ascii.eqb c1 dot
                         && match p2 with [] => true | c2 :: _ => Ascii.eqb c2 slash end
                     | [] => false
                     end then
            (* .. element: remove to last / *)
            let p2 := tl p1 in
            let w := List.length out in
            if (dotdot <? w)%nat then
              clean_loop fuel' rooted p2 (backtrack out (w - 1) dotdot) dotdot
            else if negb rooted then
              let out1 := if (0 <? w)%nat then slash :: out else out in
              let out2 := dot :: dot :: out1 in
              clean_loop fuel' rooted p2 out2 (List.length out2)
            else
              clean_loop fuel' rooted p2 out dotdot
          else
            (* real path element: add slash if needed, copy element *)
            let w := List.length out in
            let out1 :=
              if (rooted && negb (w =? 1)%nat) || (negb rooted && negb (w =? 0)%nat)
              then slash :: out else out in
            let '(p', out2) := copy_element p out1 in
            clean_loop fuel' rooted p' out2 dotdot
      end
  end.

(** [path.Clean(path)]. *)
Definition Clean (p0 : string) : string :=
  match p0 with
  | EmptyString => "."
  | String c0 _ =>
      let p := list_ascii_of_string p0 in
      let rooted := Ascii.eqb c0 slash in
      let out :=
        if rooted then clean_loop (List.length p) rooted (tl p) [slash] 1
        else clean_loop (List.length p) rooted p [] 0 in
      match out with
      | [] => "."
      | _ => string_of_list_ascii (List.rev out)
      end
  end.

(** The buffer loop of [path.Join]: empty elements before the first
    non-empty one are dropped, later ones still get their separator. *)
Fixpoint join_buf (elem : list string) (buf : string) : string :=
  match elem with
  | [] => buf
  | e :: rest =>
      if negb (String.eqb buf "") || negb (String.eqb e "")
      then join_buf rest
             ((if negb (String.eqb buf "") then buf ++ "/" else buf) ++ e)
      else join_buf rest buf
  end.

(** [path.Join(elem...)]. *)
Definition Join (elem : list string) : string :=
  if (fold_right (fun e n => String.length e + n) 0 elem =? 0)%nat then ""
  else Clean (join_buf elem "").

End path.

(** ** Results and errors *)

(** A Go [error] value is kept as its message. *)
Definition error := string.

(** The result of a call returning [(T, error)]. *)
Inductive result (A : Type) : Type :=
| Ok (a : A)
| Err (e : error).
Arguments Ok {A} a.
Arguments Err {A} e.

(** ** [net] and [swag]: host and port strings *)

Module net.

(** The address a TCP listener is bound to; [IP] is its textual form. *)
Record TCPAddr := mkTCPAddr { IP : string; Port : Z }.

Record Listener := mkListener { Addr : TCPAddr }.

(** [net.JoinHostPort(host, port)]. *)
Definition JoinHostPort (host port : string) : string :=
  if strings.contains_byte ":" host then "[" ++ host ++ "]:" ++ port
  else host ++ ":" ++ port.

(** The method [String()] of a [TCPAddr] without zone. *)
Definition TCPAddr_String (a : TCPAddr) : string :=
  JoinHostPort (IP a) (strconv.Itoa (Port a)).

Definition missingPort : error := "missing port in address".
Definition tooManyColons : error := "too many colons in address".

(** [net.SplitHostPort(hostport)]: the port starts after the last colon;
    a host in brackets ends at the first closing bracket, which must sit
    just before that colon. *)
Definition SplitHostPort (hostport : string) : result (string * string) :=
  match strings.split_last ":" hostport with
  | None => Err missingPort
  | Some (before, port) =>
      let i := String.length before in
      if strings.head_is "[" hostport then
        (* Expect the first ']' just before the last ':'. *)
        match strings.split_first "]" hostport with
        | None => Err "missing ']' in address"
        | Some (pre, post) =>
            let e := String.length pre in
            if (e + 1 =? String.length hostport)%nat then Err missingPort
            else if (e + 1 =? i)%nat then
              if strings.contains_byte "[" (strings.tail hostport)
              then Err "unexpected '[' in address"
              else if strings.contains_byte "]" post
              then Err "unexpected ']' in address"
              else Ok (strings.tail pre, port)
            else if strings.head_is ":" post then Err tooManyColons
            else Err missingPort
        end
      else
        let host := before in
        if strings.contains_byte ":" host then Err tooManyColons
        else if strings.contains_byte "[" hostport
        then Err "unexpected '[' in address"
        else if strings.contains_byte "]" hostport
        then Err "unexpected ']' in address"
        else Ok (host, port)
  end.

End net.

Module swag.

(** [swag.SplitHostPort(addr)]: the port as an [int]. *)
Definition SplitHostPort (addr : string) : result (string * Z) :=
  match net.SplitHostPort addr with
  | Err e => Err e
  | Ok (h, p) =>
      if String.eqb p "" then Err net.missingPort
      else match strconv.Atoi p with
           | None => Err ("strconv.Atoi: parsing " ++ p)
           | Some pi => Ok (h, pi)
           end
  end.

End swag.

(** ** The handler chain *)

Module spec.

(** [spec.ExpandOptions], the fields that [Execute] sets. *)
Record ExpandOptions := mkExpandOptions {
  SkipSchemas : bool;
  ContinueOnError : bool;
  AbsoluteCircularRef : bool
}.

End spec.

Module middleware.

(** [middleware.RedocOpts], the fields that [Execute] sets. *)
Module RedocOpts.
Record t := mk {
  BasePath : string;
  SpecURL : string;
  Path : string;
  RedocURL : string
}.
End RedocOpts.

(** [middleware.SwaggerUIOpts], the fields that [Execute] sets. *)
Module SwaggerUIOpts.
Record t := mk {
  BasePath : string;
  SpecURL : string;
  Path : string;
  SwaggerURL : string;
  SwaggerPresetURL : string;
  SwaggerStylesURL : string;
  Favicon16 : string;
  Favicon32 : string
}.
End SwaggerUIOpts.

(** An [http.Handler] as [Execute] builds it: each constructor is one of
    the calls that wrap the handler built so far. *)
Inductive Handler : Type :=
| NotFoundHandler                                       (* http.NotFoundHandler() *)
| Redoc (opts : RedocOpts.t) (next : Handler)           (* middleware.Redoc(opts, next) *)
| SwaggerUI (opts : SwaggerUIOpts.t) (next : Handler)   (* middleware.SwaggerUI(opts, next) *)
| Spec (basePath : string) (b : string) (next : Handler) (* middleware.Spec(basePath, b, next) *)
| CORS (h : Handler).                                   (* handlers.CORS()(h) *)

(** What a handler writes. *)
Inductive Body : Type :=
| NotFoundPage
| SpecDocument (b : string)
| RedocPage (opts : RedocOpts.t)
| SwaggerUIPage (opts : SwaggerUIOpts.t).

Record Response := mkResponse {
  status : Z;
  body : Body;
  cors : bool
}.

(** Modelled from the spec: the middleware of go-openapi/runtime and the
    cross-origin wrapper of gorilla/handlers are not part of this
    repository.  The spec registers the UI route at [basePath/uiPath]. *)
Definition ui_route (basePath uiPath : string) : string :=
  path.Join [basePath; uiPath].

(** Modelled from the spec: the document route is at
    [basePath/swagger.json]. *)
Definition spec_route (basePath : string) : string :=
  path.Join [basePath; "swagger.json"].

(** Modelled from the spec: a GET of [url] through the chain.  Each route
    answers 200 on its own path and hands every other path to the handler
    it wraps; the innermost handler answers 404; the cross-origin layer
    marks the response of whatever it wraps. *)
Fixpoint ServeHTTP (h : Handler) (url : string) : Response :=
  match h with
  | NotFoundHandler => mkResponse 404 NotFoundPage false
  | Redoc opts next =>
      if String.eqb url (ui_route (RedocOpts.BasePath opts) (RedocOpts.Path opts))
      then mkResponse 200 (RedocPage opts) false
      else ServeHTTP next url
  | SwaggerUI opts next =>
      if String.eqb url (ui_route (SwaggerUIOpts.BasePath opts) (SwaggerUIOpts.Path opts))
      then mkResponse 200 (SwaggerUIPage opts) false
      else ServeHTTP next url
  | Spec basePath b next =>
      if String.eqb url (spec_route basePath)
      then mkResponse 200 (SpecDocument b) false
      else ServeHTTP next url
  | CORS h' =>
      let r := ServeHTTP h' url in mkResponse (status r) (body r) true
  end.

(** The UI routes of a chain, outermost first. *)
Fixpoint ui_routes (h : Handler) : list string :=
  match h with
  | NotFoundHandler => []
  | Redoc opts next =>
      ui_route (RedocOpts.BasePath opts) (RedocOpts.Path opts) :: ui_routes next
  | SwaggerUI opts next =>
      ui_route (SwaggerUIOpts.BasePath opts) (SwaggerUIOpts.Path opts) :: ui_routes next
  | Spec _ _ next => ui_routes next
  | CORS h' => ui_routes h'
  end.

End middleware.

Import middleware.

(** ** The command *)

(** The default download prefixes of the UI assets (lines 22-24). *)
Definition DefaultSwaggerCloudStaticFileUrLPrefix : string :=
  "https://unpkg.com/swagger-ui-dist".
Definition DefaultRedocCloudStaticFileUrLPrefix : string :=
  "https://cdn.jsdelivr.net/npm/redoc/bundles".

(** [ServeCmd] to serve a swagger spec with docs ui. *)
Record ServeCmd := mkServeCmd {
  BasePath : string;
  Flavor : string;
  DocURL : string;
  NoOpen : bool;
  NoUI : bool;
  Flatten : bool;
  Port : Z;
  Host : string;
  Path : string;
  SourceUrL : string
}.

(** What the main control path of [Execute] does to the outside, in
    program order.  [EvServe] is the [go] statement that starts the server
    on its own path; [EvAwait] is the receive from [errFuture]. *)
Inductive Event : Type :=
| EvLoad (arg : string)                         (* loads.Spec(args[0]) *)
| EvExpand (opts : spec.ExpandOptions)          (* specDoc.Expanded(opts) *)
| EvMarshal (prefix indent : string)            (* json.MarshalIndent(_, prefix, indent) *)
| EvListen (network address : string)           (* net.Listen(network, address) *)
| EvServe (l : net.Listener) (h : Handler) (keepAlives : bool)
| EvOpen (url : string)                         (* webbrowser.Open(url) *)
| EvLog (msg : list string)                     (* log.Println(msg...) *)
| EvAwait.

Section Execute.

(** [Document] is a loaded specification ([*loads.Document]) and [Swagger]
    its in-memory model ([*spec.Swagger]). *)
Variables Document Swagger : Type.

(** The collaborators and the operating system. *)
Record World := mkWorld {
  loads_Spec : string -> result Document;
  Expanded : Document -> spec.ExpandOptions -> result Document;
  Spec_of : Document -> Swagger;
  MarshalIndent : Swagger -> string -> string -> result string;
  Listen : string -> string -> result net.Listener;
  (* the value [docServer.Serve(listener)] sends on [errFuture] *)
  Serve : net.Listener -> Handler -> option error;
  (* [nil] or the launch error *)
  Open : string -> option error
}.

(** A computation of the main path: the events so far, then a value or
    the error that [Execute] returns early. *)
Definition M (A : Type) : Type := list Event * result A.

Definition ret {A} (a : A) : M A := ([], Ok a).

Definition bind {A B} (m : M A) (f : A -> M B) : M B :=
  match snd m with
  | Ok a => ((fst m ++ fst (f a))%list, snd (f a))
  | Err e => (fst m, Err e)
  end.

Definition emit (ev : Event) : M unit := ([ev], Ok tt).

(** A call that is recorded and whose error is returned at once. *)
Definition call {A} (ev : Event) (r : result A) : M A := ([ev], r).

Definition lift {A} (r : result A) : M A := ([], r).

Notation "x <- m ;; k" := (bind m (fun x => k))
  (at level 61, m at next level, right associativity).
Notation "' p <- m ;; k" := (bind m (fun x => let 'p := x in k))
  (at level 61, p pattern, m at next level, right associativity).
Notation "m ;;; k" := (bind m (fun _ => k))
  (at level 61, right associativity).

Variable w : World.

(** Lines 68-71: the base path, [/] when empty. *)
Definition basePath_of (s : ServeCmd) : string :=
  if String.eqb (BasePath s) "" then "/" else BasePath s.

(** Lines 81-83: the host shown in the visit URL. *)
Definition displayHost (sh : string) : string :=
  if String.eqb sh "0.0.0.0" then "localhost" else sh.

(** Lines 88-98: the asset prefixes [(reDocUrlPrefix, swaggerUiUrlPrefix)]. *)
Definition urlPrefixes (s : ServeCmd) : string * string :=
  if negb (String.eqb (SourceUrL s) "") then (SourceUrL s, SourceUrL s)
  else (DefaultRedocCloudStaticFileUrLPrefix, DefaultSwaggerCloudStaticFileUrLPrefix).

(** [fmt.Sprintf("http://%s:%d%s", sh, sp, p)]. *)
Definition visitURL (sh : string) (sp : Z) (p : string) : string :=
  "http://" ++ sh ++ ":" ++ strconv.Itoa sp ++ p.

(** Lines 85-125: the handler chain and the visit URL, from the served
    bytes [b] and the display host and port [sh], [sp]. *)
Definition compose (s : ServeCmd) (b : string) (sh : string) (sp : Z)
  : Handler * string :=
  let basePath := basePath_of s in
  let visit := DocURL s in
  let handler := NotFoundHandler in
  let '(reDocUrlPrefix, swaggerUiUrlPrefix) := urlPrefixes s in
  let '(handler, visit) :=
    if negb (NoUI s) then
      if String.eqb (Flavor s) "redoc" then
        (Redoc (RedocOpts.mk
                  basePath
                  (path.Join [basePath; "swagger.json"])
                  (Path s)
                  (strings.Join [reDocUrlPrefix; "redoc.standalone.js"] "/"))
               handler,
         visitURL sh sp (path.Join [basePath; "docs"]))
      else if negb (String.eqb visit "") || String.eqb (Flavor s) "swagger" then
        (SwaggerUI (SwaggerUIOpts.mk
                      basePath
                      (path.Join [basePath; "swagger.json"])
                      (Path s)
                      (strings.Join [swaggerUiUrlPrefix; "swagger-ui-bundle.js"] "/")
                      (strings.Join [swaggerUiUrlPrefix; "swagger-ui-standalone-preset.js"] "/")
                      (strings.Join [swaggerUiUrlPrefix; "swagger-ui.css"] "/")
                      (strings.Join [swaggerUiUrlPrefix; "favicon-16x16.png"] "/")
                      (strings.Join [swaggerUiUrlPrefix; "favicon-32x32.png"] "/"))
                   handler,
         visitURL sh sp (path.Join [basePath; Path s]))
      else (handler, visit)
    else (handler, visit) in
  (CORS (Spec basePath b handler), visit).

(** Lines 52-56: the options of the [Expanded] call. *)
Definition expandOptions : spec.ExpandOptions :=
  spec.mkExpandOptions false true true.

Definition usageError : error :=
  "specify the spec to serve as argument to the serve command".

(** Line 73: the address handed to [net.Listen]. *)
Definition listenAddress (s : ServeCmd) : string :=
  net.JoinHostPort (Host s) (strconv.Itoa (Port s)).

(** Line 135: whether the browser is launched. *)
Definition opens (s : ServeCmd) : bool := negb (NoOpen s) && negb (NoUI s).

(** [Execute], up to the value it returns. *)
Definition ExecuteM (s : ServeCmd) (args : list string) : M (option error) :=
  match args with
  | [] => lift (Err usageError)
  | arg0 :: _ =>
      specDoc <- call (EvLoad arg0) (loads_Spec w arg0) ;;
      specDoc <- (if Flatten s
                  then call (EvExpand expandOptions) (Expanded w specDoc expandOptions)
                  else ret specDoc) ;;
      b <- call (EvMarshal "" "  ") (MarshalIndent w (Spec_of w specDoc) "" "  ") ;;
      listener <- call (EvListen "tcp4" (listenAddress s))
                       (Listen w "tcp4" (listenAddress s)) ;;
      ' (sh, sp) <- lift (swag.SplitHostPort (net.TCPAddr_String (net.Addr listener))) ;;
      let sh := displayHost sh in
      let handler := fst (compose s b sh sp) in
      let visit := snd (compose s b sh sp) in
      emit (EvServe listener handler true) ;;;
      (if opens s
       then call (EvOpen visit)
                 (match Open w visit with Some err => Err err | None => Ok tt end)
       else ret tt) ;;;
      emit (EvLog ["serving docs at"; visit]) ;;;
      emit EvAwait ;;;
      ret (Serve w listener handler)
  end.

(** [Execute(args)]: the events of the main path and the returned error
    ([None] is [nil]). *)
Definition Execute (s : ServeCmd) (args : list string) : list Event * option error :=
  (fst (ExecuteM s args),
   match snd (ExecuteM s args) with
   | Ok r => r
   | Err e => Some e
   end).

(** *** The exits of [Execute] *)

(** Lines 51-61 as a value: the document that is serialized. *)
Definition expanded (s : ServeCmd) (doc : Document) : result Document :=
  if Flatten s then Expanded w doc expandOptions else Ok doc.

Definition expandEvents (s : ServeCmd) : list Event :=
  if Flatten s then [EvExpand expandOptions] else [].

(** [args] load, through the flatten step, to the in-memory document
    [doc], which is serialized to [b]. *)
Definition Rendered (s : ServeCmd) (args : list string) (doc : Document)
    (b : string) : Prop :=
  exists arg rest loaded,
    args = arg :: rest
    /\ loads_Spec w arg = Ok loaded
    /\ expanded s loaded = Ok doc
    /\ MarshalIndent w (Spec_of w doc) "" "  " = Ok b.

(** Start-up succeeded: the bytes [b] are rendered, [l] is bound, and its
    address splits into [sh] and [sp]. *)
Definition Started (s : ServeCmd) (args : list string) (b : string)
    (l : net.Listener) (sh : string) (sp : Z) : Prop :=
  (exists doc, Rendered s args doc b)
  /\ Listen w "tcp4" (listenAddress s) = Ok l
  /\ swag.SplitHostPort (net.TCPAddr_String (net.Addr l)) = Ok (sh, sp).

(** The events of a start-up that got as far as a bound listener. *)
Definition startupEvents (s : ServeCmd) (arg : string) : list Event :=
  (EvLoad arg :: expandEvents s
   ++ [EvMarshal "" "  "; EvListen "tcp4" (listenAddress s)])%list.

(** The failures of the steps before serving: a missing argument, and the
    load, expansion, serialization and bind errors. *)
Inductive StartupFailure (s : ServeCmd) : list string -> error -> Prop :=
| UsageFailure :
    StartupFailure s [] usageError
| LoadError arg rest e :
    loads_Spec w arg = Err e ->
    StartupFailure s (arg :: rest) e
| ExpansionError arg rest loaded e :
    loads_Spec w arg = Ok loaded ->
    Flatten s = true ->
    Expanded w loaded expandOptions = Err e ->
    StartupFailure s (arg :: rest) e
| SerializationError arg rest loaded doc e :
    loads_Spec w arg = Ok loaded ->
    expanded s loaded = Ok doc ->
    MarshalIndent w (Spec_of w doc) "" "  " = Err e ->
    StartupFailure s (arg :: rest) e
| BindError args doc b e :
    Rendered s args doc b ->
    Listen w "tcp4" (listenAddress s) = Err e ->
    StartupFailure s args e.

(** Every way [Execute] can run: its events and the error it returns. *)
Inductive Run (s : ServeCmd) : list string -> list Event -> option error -> Prop :=
| RunUsage :
    Run s [] [] (Some usageError)
| RunLoadError arg rest e :
    loads_Spec w arg = Err e ->
    Run s (arg :: rest) [EvLoad arg] (Some e)
| RunExpansionError arg rest loaded e :
    loads_Spec w arg = Ok loaded ->
    Flatten s = true ->
    Expanded w loaded expandOptions = Err e ->
    Run s (arg :: rest) [EvLoad arg; EvExpand expandOptions] (Some e)
| RunSerializationError arg rest loaded doc e :
    loads_Spec w arg = Ok loaded ->
    expanded s loaded = Ok doc ->
    MarshalIndent w (Spec_of w doc) "" "  " = Err e ->
    Run s (arg :: rest)
        (EvLoad arg :: expandEvents s ++ [EvMarshal "" "  "])%list (Some e)
| RunBindError arg rest doc b e :
    Rendered s (arg :: rest) doc b ->
    Listen w "tcp4" (listenAddress s) = Err e ->
    Run s (arg :: rest) (startupEvents s arg) (Some e)
| RunAddrError arg rest doc b l e :
    Rendered s (arg :: rest) doc b ->
    Listen w "tcp4" (listenAddress s) = Ok l ->
    swag.SplitHostPort (net.TCPAddr_String (net.Addr l)) = Err e ->
    Run s (arg :: rest) (startupEvents s arg) (Some e)
| RunLaunchError arg rest b l sh sp e :
    Started s (arg :: rest) b l sh sp ->
    opens s = true ->
    Open w (snd (compose s b (displayHost sh) sp)) = Some e ->
    Run s (arg :: rest)
        (startupEvents s arg
         ++ [EvServe l (fst (compose s b (displayHost sh) sp)) true;
             EvOpen (snd (compose s b (displayHost sh) sp))])%list
        (Some e)
| RunLaunched arg rest b l sh sp :
    Started s (arg :: rest) b l sh sp ->
    opens s = true ->
    Open w (snd (compose s b (displayHost sh) sp)) = None ->
    Run s (arg :: rest)
        (startupEvents s arg
         ++ [EvServe l (fst (compose s b (displayHost sh) sp)) true;
             EvOpen (snd (compose s b (displayHost sh) sp));
             EvLog ["serving docs at"; snd (compose s b (displayHost sh) sp)];
             EvAwait])%list
        (Serve w l (fst (compose s b (displayHost sh) sp)))
| RunServed arg rest b l sh sp :
    Started s (arg :: rest) b l sh sp ->
    opens s = false ->
    Run s (arg :: rest)
        (startupEvents s arg
         ++ [EvServe l (fst (compose s b (displayHost sh) sp)) true;
             EvLog ["serving docs at"; snd (compose s b (displayHost sh) sp)];
             EvAwait])%list
        (Serve w l (fst (compose s b (displayHost sh) sp))).

End Execute.

Arguments World : clear implicits.
Arguments mkWorld {Document Swagger}.
Arguments loads_Spec {Document Swagger}.
Arguments Expanded {Document Swagger}.
Arguments Spec_of {Document Swagger}.
Arguments MarshalIndent {Document Swagger}.
Arguments Listen {Document Swagger}.
Arguments Serve {Document Swagger}.
Arguments Open {Document Swagger}.
Arguments ExecuteM {Document Swagger}.
Arguments Execute {Document Swagger}.
Arguments expanded {Document Swagger}.
Arguments Rendered {Document Swagger}.
Arguments Started {Document Swagger}.
Arguments StartupFailure {Document Swagger}.
Arguments Run {Document Swagger}.

(** ** Observations on handlers, events and configurations *)

(** The asset URLs a chain hands to its UI pages. *)
Fixpoint assetURLs (h : Handler) : list string :=
  match h with
  | NotFoundHandler => []
  | Redoc opts next => RedocOpts.RedocURL opts :: assetURLs next
  | SwaggerUI opts next =>
      SwaggerUIOpts.SwaggerURL opts
      :: SwaggerUIOpts.SwaggerPresetURL opts
      :: SwaggerUIOpts.SwaggerStylesURL opts
      :: SwaggerUIOpts.Favicon16 opts
      :: SwaggerUIOpts.Favicon32 opts
      :: assetURLs next
  | Spec _ _ next => assetURLs next
  | CORS h' => assetURLs h'
  end.

(** The steps of an invocation. *)
Inductive Step : Type :=
| StLoad | StExpand | StMarshal | StListen | StServe | StOpen | StLog | StAwait.

Definition step_of (ev : Event) : Step :=
  match ev with
  | EvLoad _ => StLoad
  | EvExpand _ => StExpand
  | EvMarshal _ _ => StMarshal
  | EvListen _ _ => StListen
  | EvServe _ _ _ => StServe
  | EvOpen _ => StOpen
  | EvLog _ => StLog
  | EvAwait => StAwait
  end.

Definition is_serve (ev : Event) : bool :=
  match ev with EvServe _ _ _ => true | _ => false end.

Definition is_open (ev : Event) : bool :=
  match ev with EvOpen _ => true | _ => false end.

Definition is_listen (ev : Event) : bool :=
  match ev with EvListen _ _ => true | _ => false end.


(** The same configuration with another [--path]. *)
Definition with_Path (s : ServeCmd) (p : string) : ServeCmd :=
  mkServeCmd (BasePath s) (Flavor s) (DocURL s) (NoOpen s) (NoUI s) (Flatten s)
             (Port s) (Host s) p (SourceUrL s).


(** A bound IPv4 address: no colon or bracket in the host, a TCP port. *)
Definition tcp4 (a : net.TCPAddr) : Prop :=
  strings.contains_byte ":" (net.IP a) = false
  /\ strings.contains_byte "[" (net.IP a) = false
  /\ strings.contains_byte "]" (net.IP a) = false
  /\ 0 <= net.Port a <= 65535.

(** The same configuration with another [--doc-url]. *)
Definition with_DocURL (s : ServeCmd) (u : string) : ServeCmd :=
  mkServeCmd (BasePath s) (Flavor s) u (NoOpen s) (NoUI s) (Flatten s)
             (Port s) (Host s) (Path s) (SourceUrL s).

(** The same configuration with another [--base-path]. *)
Definition with_BasePath (s : ServeCmd) (bp : string) : ServeCmd :=
  mkServeCmd bp (Flavor s) (DocURL s) (NoOpen s) (NoUI s) (Flatten s)
             (Port s) (Host s) (Path s) (SourceUrL s).

(** The place of a step in the text of [Execute]. *)
Definition step_rank (st : Step) : nat :=
  match st with
  | StLoad => 0
  | StExpand => 1
  | StMarshal => 2
  | StListen => 3
  | StServe => 4
  | StOpen => 5
  | StLog => 6
  | StAwait => 7
  end.


(** The write buffer of [path.Clean], kept reversed, still holds the
    leading slash of a rooted path at its bottom. *)
Definition keeps_root (out : path.lazybuf) : Prop :=
  exists pre, out = (pre ++ [path.slash])%list.

(** ** A world to run in *)

Module Demo.

(** The listener an operating system hands out for [address]: the
    wildcard address for an empty host, a free port for port 0. *)
Definition listen (network address : string) : result net.Listener :=
  match swag.SplitHostPort address with
  | Ok (h, p) =>
      if (0 <=? p) && (p <=? 65535)
      then Ok (net.mkListener
                 (net.mkTCPAddr (if String.eqb h "" then "0.0.0.0" else h)
                                (if p =? 0 then 49152 else p)))
      else Err "listen tcp4: invalid port"
  | Err e => Err e
  end.

(** Documents are their own text; flattening marks them. *)
Definition world (launch : string -> option error) : World string string :=
  mkWorld
    (fun arg => if String.eqb arg "" then Err "open : no such file or directory"
                else Ok ("{swagger:" ++ arg ++ "}"))
    (fun doc _ => Ok ("expanded" ++ doc))
    (fun doc => doc)
    (fun sw prefix indent => Ok (prefix ++ indent ++ sw))
    listen
    (fun _ _ => Some "http: Server closed")
    launch.

Definition browser : World string string := world (fun _ => None).

Definition headless : World string string :=
  world (fun _ => Some "exec: xdg-open: executable file not found in $PATH").

(** [swagger serve petstore.json] *)
Definition defaults : ServeCmd :=
  mkServeCmd "" "redoc" "" false false false 0 "0.0.0.0" "docs" "".

(** [swagger serve -F swagger --path ui --host 127.0.0.1 -p 8080 --flatten] *)
Definition swaggerui : ServeCmd :=
  mkServeCmd "/api" "swagger" "" false false true 8080 "127.0.0.1" "ui" "".

(** [swagger serve --no-ui --doc-url http://example.com/viewer] *)
Definition noui : ServeCmd :=
  mkServeCmd "" "redoc" "http://example.com/viewer" false true false 0 "0.0.0.0" "docs" "".

(** [swagger serve -S https://example.com/assets] *)
Definition mirrored (flavor : string) : ServeCmd :=
  mkServeCmd "" flavor "" true false false 0 "0.0.0.0" "docs" "https://example.com/assets".

(** [ServeCmd{Flavor: "rapidoc"}] with the remaining defaults, as a
    caller that fills the struct itself can pass it. *)
Definition unknownFlavor (docURL : string) : ServeCmd :=
  mkServeCmd "" "rapidoc" docURL false false false 0 "0.0.0.0" "docs" "".


End Demo.

Example Join_root_docs : path.Join ["/"; "docs"] = "/docs".
Proof. reflexivity. Qed.

Example Join_clean : path.Join ["/api/v1/"; "../swagger.json"] = "/api/swagger.json".
Proof. reflexivity. Qed.

(** Rows of the tables of Go's own tests for [path.Clean] and [path.Join]. *)
Example Clean_table :
  map path.Clean
      [""; "abc"; "abc/def"; "."; ".."; "../../abc"; "/abc"; "/";
       "abc/"; "./"; "../../"; "/abc/";
       "abc//def//ghi"; "//abc"; "///abc"; "//abc//"; "abc//";
       "abc/./def"; "/./abc/def"; "abc/.";
       "abc/def/ghi/../jkl"; "abc/def/../ghi/../jkl"; "abc/def/..";
       "abc/def/../.."; "/abc/def/../.."; "abc/def/../../..";
       "/abc/def/../../.."; "abc/def/../../../ghi/jkl/../../../mno";
       "abc/./../def"; "abc//./../def"; "abc/../../././../def"]
  = ["."; "abc"; "abc/def"; "."; ".."; "../../abc"; "/abc"; "/";
     "abc"; "."; "../.."; "/abc";
     "abc/def/ghi"; "/abc"; "/abc"; "/abc"; "abc";
     "abc/def"; "/abc/def"; "abc";
     "abc/def/jkl"; "abc/jkl"; "abc";
     "."; "/"; "..";
     "/"; "../../mno";
     "def"; "def"; "../../def"].
Proof. vm_compute. reflexivity. Qed.

Example Join_table :
  map path.Join
      [[]; [""]; ["a"]; ["a"; "b"]; ["a"; ""]; [""; "b"]; ["/"; "a"];
       ["/"; ""]; ["a/"; "b"]; ["a/"; ""]; [""; ""]]
  = [""; ""; "a"; "a/b"; "a"; "b"; "/a"; "/"; "a/b"; "a"; ""].
Proof. vm_compute. reflexivity. Qed.

Example Join_rel : path.Join ["a/../.."; ""; "docs"] = "../docs".
Proof. reflexivity. Qed.

Example Itoa_ex : strconv.Itoa 8080 = "8080" /\ strconv.Itoa 0 = "0" /\ strconv.Itoa (-17) = "-17".
Proof. repeat split. Qed.

Example Atoi_ex : strconv.Atoi "54321" = Some 54321 /\ strconv.Atoi "+7" = Some 7
                  /\ strconv.Atoi "" = None /\ strconv.Atoi "8o" = None.
Proof. repeat split. Qed.

Example SplitHostPort_ex :
  swag.SplitHostPort "0.0.0.0:8080" = Ok ("0.0.0.0", 8080)
  /\ swag.SplitHostPort "[::1]:80" = Ok ("::1", 80)
  /\ swag.SplitHostPort "localhost" = Err net.missingPort
  /\ swag.SplitHostPort "a:b:1" = Err net.tooManyColons.
Proof. repeat split. Qed.

Example Execute_defaults :
  Execute Demo.browser Demo.defaults ["petstore.json"] =
  ([EvLoad "petstore.json"; EvMarshal "" "  "; EvListen "tcp4" "0.0.0.0:0";
    EvServe (net.mkListener (net.mkTCPAddr "0.0.0.0" 49152))
            (CORS (Spec "/" "  {swagger:petstore.json}"
                     (Redoc (RedocOpts.mk "/" "/swagger.json" "docs"
                               "https://cdn.jsdelivr.net/npm/redoc/bundles/redoc.standalone.js")
                            NotFoundHandler)))
            true;
    EvOpen "http://localhost:49152/docs";
    EvLog ["serving docs at"; "http://localhost:49152/docs"];
    EvAwait],
   Some "http: Server closed").
Proof. vm_compute. reflexivity. Qed.

(** * Properties *)

(** ** Host and port strings *)

Section HostPort.

Import strconv.

Lemma digit_val_digit_char d :
  0 <= d <= 9 -> digit_val (digit_char d) = Some d.
Proof.
  intros H.
  assert (C : d = 0 \/ d = 1 \/ d = 2 \/ d = 3 \/ d = 4 \/ d = 5 \/ d = 6
              \/ d = 7 \/ d = 8 \/ d = 9) by lia.
  decompose [or] C; subst d; reflexivity.
Qed.

Lemma digit_char_neq d c :
  0 <= d <= 9 -> digit_val c = None -> Ascii.eqb (digit_char d) c = false.
Proof.
  intros H Hc. apply Ascii.eqb_neq. intros <-.
  rewrite (digit_val_digit_char d H) in Hc. discriminate.
Qed.

(** Parsing what [format_digits] wrote in front of [acc] shifts the
    accumulator by the digits of [n]. *)
Lemma parse_format_digits fuel :
  forall n acc, 0 <= n < 10 ^ Z.of_nat (S fuel) ->
  exists k, forall v,
    parse_digits (format_digits (S fuel) n acc) v
    = parse_digits acc (v * 10 ^ Z.of_nat (S k) + n).
Proof.
  induction fuel as [|fuel IH]; intros n acc Hn.
  - exists O. intros v. cbn [format_digits].
    change (10 ^ Z.of_nat 1) with 10 in *.
    destruct (n <? 10) eqn:E; [|apply Z.ltb_ge in E; lia].
    cbn [parse_digits]. rewrite Z.mod_small by lia.
    rewrite digit_val_digit_char by lia. reflexivity.
  - cbn [format_digits]. destruct (n <? 10) eqn:E.
    + apply Z.ltb_lt in E. exists O. intros v. cbn [parse_digits].
      rewrite Z.mod_small by lia. rewrite digit_val_digit_char by lia.
      reflexivity.
    + apply Z.ltb_ge in E.
      assert (Hq : 0 <= n / 10 < 10 ^ Z.of_nat (S fuel)).
      { split; [apply Z.div_pos; lia|].
        apply Z.div_lt_upper_bound; [lia|].
        rewrite (Nat2Z.inj_succ (S fuel)), Z.pow_succ_r in Hn by lia. lia. }
      destruct (IH (n / 10) (String (digit_char (n mod 10)) acc) Hq) as [k Hk].
      exists (S k). intros v. rewrite Hk. cbn [parse_digits].
      pose proof (Z.mod_pos_bound n 10 ltac:(lia)).
      rewrite digit_val_digit_char by lia. f_equal.
      rewrite (Nat2Z.inj_succ (S k)), Z.pow_succ_r by lia.
      pose proof (Z.div_mod n 10 ltac:(lia)). lia.
Qed.

Lemma format_digits_head fuel :
  forall n acc, 0 <= n < 10 ^ Z.of_nat (S fuel) ->
  exists d rest, 0 <= d <= 9
    /\ format_digits (S fuel) n acc = String (digit_char d) rest.
Proof.
  induction fuel as [|fuel IH]; intros n acc Hn.
  - cbn [format_digits]. change (10 ^ Z.of_nat 1) with 10 in *.
    destruct (n <? 10) eqn:E; [|apply Z.ltb_ge in E; lia].
    exists (n mod 10), acc. split; [|reflexivity].
    pose proof (Z.mod_pos_bound n 10 ltac:(lia)). lia.
  - cbn [format_digits]. destruct (n <? 10) eqn:E.
    + exists (n mod 10), acc. split; [|reflexivity].
      pose proof (Z.mod_pos_bound n 10 ltac:(lia)). lia.
    + apply Z.ltb_ge in E. apply IH.
      split; [apply Z.div_pos; lia|].
      apply Z.div_lt_upper_bound; [lia|].
      rewrite (Nat2Z.inj_succ (S fuel)), Z.pow_succ_r in Hn by lia. lia.
Qed.

(** What [format_digits] writes holds digits only. *)
Lemma format_digits_bytes c fuel :
  digit_val c = None ->
  forall n acc, 0 <= n ->
  strings.contains_byte c acc = false ->
  strings.contains_byte c (format_digits fuel n acc) = false.
Proof.
  intros Hc. induction fuel as [|fuel IH]; intros n acc Hn Hacc; [exact Hacc|].
  cbn [format_digits].
  pose proof (Z.mod_pos_bound n 10 ltac:(lia)).
  assert (Hd : strings.contains_byte c (String (digit_char (n mod 10)) acc) = false)
    by (cbn [strings.contains_byte]; rewrite digit_char_neq by (auto; lia); exact Hacc).
  destruct (n <? 10); [exact Hd|].
  apply IH; [apply Z.div_pos; lia | exact Hd].
Qed.

Lemma Itoa_bytes c n :
  digit_val c = None -> 0 <= n ->
  strings.contains_byte c (Itoa n) = false.
Proof.
  intros Hc Hn. unfold Itoa, format_uint.
  destruct (n <? 0) eqn:E; [apply Z.ltb_lt in E; lia|].
  now apply format_digits_bytes.
Qed.

(** [Atoi] reads back what [Itoa] prints for a non-negative [int]. *)
Lemma Atoi_Itoa n : 0 <= n <= maxInt -> Atoi (Itoa n) = Some n.
Proof.
  intros Hn. unfold Itoa, format_uint.
  destruct (n <? 0) eqn:E; [apply Z.ltb_lt in E; lia|].
  assert (Hb : 0 <= n < 10 ^ Z.of_nat 19) by (unfold maxInt in Hn; simpl; lia).
  destruct (format_digits_head 18 n "" Hb) as (d & rest & Hd & Hhead).
  destruct (parse_format_digits 18 n "" Hb) as [k Hk].
  unfold Atoi. rewrite Hhead. cbn [strings.head_is].
  rewrite !digit_char_neq by (auto; lia). cbn [orb String.eqb].
  rewrite <- Hhead, Hk. cbn [parse_digits].
  replace (0 * 10 ^ Z.of_nat (S k) + n) with n by lia.
  destruct ((minInt <=? n) && (n <=? maxInt)) eqn:R; [reflexivity|].
  apply andb_false_iff in R as [R|R];
    [apply Z.leb_gt in R; unfold minInt in R | apply Z.leb_gt in R]; lia.
Qed.

Lemma Itoa_nonempty n : 0 <= n <= maxInt -> Itoa n <> "".
Proof.
  intros Hn E. pose proof (Atoi_Itoa n Hn) as H. rewrite E in H. discriminate.
Qed.

Lemma contains_byte_app c a b :
  strings.contains_byte c (a ++ b)
  = strings.contains_byte c a || strings.contains_byte c b.
Proof.
  induction a as [|x a IH]; cbn [String.append strings.contains_byte];
    [reflexivity|].
  now destruct (Ascii.eqb x c).
Qed.

Lemma split_last_none c s :
  strings.contains_byte c s = false -> strings.split_last c s = None.
Proof.
  induction s as [|x s IH]; cbn [strings.contains_byte strings.split_last];
    [reflexivity|].
  destruct (Ascii.eqb x c); [discriminate|]. intros H. now rewrite IH.
Qed.

(** The last [c] of [h ++ c ++ p] is the one in the middle when [p] has
    none. *)
Lemma split_last_app c h p :
  strings.contains_byte c p = false ->
  strings.split_last c (h ++ String c p) = Some (h, p).
Proof.
  intros Hp. induction h as [|x h IH]; cbn [String.append strings.split_last].
  - rewrite (split_last_none _ _ Hp), Ascii.eqb_refl. reflexivity.
  - now rewrite IH.
Qed.

Lemma head_is_app c h x rest :
  strings.contains_byte c h = false -> Ascii.eqb x c = false ->
  strings.head_is c (h ++ String x rest) = false.
Proof.
  destruct h as [|y h]; cbn [String.append strings.head_is strings.contains_byte];
    [auto|].
  destruct (Ascii.eqb y c); [discriminate | reflexivity].
Qed.

(** [net.SplitHostPort] undoes [net.JoinHostPort] on a host without
    colon or bracket and a port without them. *)
Lemma SplitHostPort_JoinHostPort host port :
  strings.contains_byte ":" host = false ->
  strings.contains_byte "[" host = false ->
  strings.contains_byte "]" host = false ->
  strings.contains_byte ":" port = false ->
  strings.contains_byte "[" port = false ->
  strings.contains_byte "]" port = false ->
  net.SplitHostPort (net.JoinHostPort host port) = Ok (host, port).
Proof.
  intros Hc Hl Hr Pc Pl Pr. unfold net.JoinHostPort, net.SplitHostPort.
  rewrite Hc. change (host ++ ":" ++ port) with (host ++ String ":" port).
  rewrite (split_last_app _ _ _ Pc), (head_is_app _ _ _ _ Hl) by reflexivity.
  rewrite Hc, !contains_byte_app, Hl, Hr.
  cbn [strings.contains_byte orb]. rewrite Pl, Pr. reflexivity.
Qed.

(** The address of a bound IPv4 listener splits into its own host and
    port. *)
Lemma SplitHostPort_TCPAddr a :
  tcp4 a ->
  swag.SplitHostPort (net.TCPAddr_String a) = Ok (net.IP a, net.Port a).
Proof.
  intros (Hc & Hl & Hr & Hp).
  assert (Hp' : 0 <= net.Port a <= maxInt) by (unfold maxInt; lia).
  unfold swag.SplitHostPort, net.TCPAddr_String.
  rewrite SplitHostPort_JoinHostPort; auto using Itoa_bytes; try (apply Itoa_bytes; tauto || reflexivity).
  pose proof (Itoa_nonempty _ Hp') as Hne. apply String.eqb_neq in Hne.
  rewrite Hne, Atoi_Itoa by assumption. reflexivity.
Qed.

End HostPort.

(** ** The runs of [Execute] *)

Section Runs.

Context {Document Swagger : Type} (w : World Document Swagger).

Local Ltac mstep := cbn [bind call lift emit ret fst snd app].

(** [Execute] as the decision tree of its exits. *)
Lemma Execute_unfold s arg rest :
  Execute w s (arg :: rest) =
  match loads_Spec w arg with
  | Err e => ([EvLoad arg], Some e)
  | Ok loaded =>
  match expanded w s loaded with
  | Err e => ([EvLoad arg; EvExpand expandOptions], Some e)
  | Ok doc =>
  match MarshalIndent w (Spec_of w doc) "" "  " with
  | Err e => ((EvLoad arg :: expandEvents s ++ [EvMarshal "" "  "])%list, Some e)
  | Ok b =>
  match Listen w "tcp4" (listenAddress s) with
  | Err e => (startupEvents s arg, Some e)
  | Ok l =>
  match swag.SplitHostPort (net.TCPAddr_String (net.Addr l)) with
  | Err e => (startupEvents s arg, Some e)
  | Ok (sh, sp) =>
      let handler := fst (compose s b (displayHost sh) sp) in
      let visit := snd (compose s b (displayHost sh) sp) in
      if opens s then
        match Open w visit with
        | Some e =>
            ((startupEvents s arg ++ [EvServe l handler true; EvOpen visit])%list,
             Some e)
        | None =>
            ((startupEvents s arg
              ++ [EvServe l handler true; EvOpen visit;
                  EvLog ["serving docs at"; visit]; EvAwait])%list,
             Serve w l handler)
        end
      else
        ((startupEvents s arg
          ++ [EvServe l handler true;
              EvLog ["serving docs at"; visit]; EvAwait])%list,
         Serve w l handler)
  end end end end end.
Proof.
  unfold Execute, ExecuteM, expanded, startupEvents, expandEvents.
  destruct (loads_Spec w arg) as [loaded|e]; [|reflexivity]; mstep.
  destruct (Flatten s); mstep;
    [destruct (Expanded w loaded expandOptions) as [doc|e]; [|reflexivity]; mstep|];
    (destruct (MarshalIndent w (Spec_of w _) "" "  ") as [b|e]; [|reflexivity]; mstep);
    (destruct (Listen w "tcp4" (listenAddress s)) as [l|e]; [|reflexivity]; mstep);
    (destruct (swag.SplitHostPort (net.TCPAddr_String (net.Addr l)))
       as [[sh sp]|e]; [|reflexivity]; mstep);
    (destruct (opens s); [|reflexivity]; mstep);
    destruct (Open w _); reflexivity.
Qed.

Lemma expanded_Err s loaded e :
  expanded w s loaded = Err e ->
  Flatten s = true /\ Expanded w loaded expandOptions = Err e.
Proof.
  unfold expanded. destruct (Flatten s); [auto | discriminate].
Qed.

(** Every invocation takes one of the exits of [Run]. *)
Lemma Execute_Run s args :
  Run w s args (fst (Execute w s args)) (snd (Execute w s args)).
Proof.
  destruct args as [|arg rest]; [apply RunUsage|].
  rewrite Execute_unfold.
  destruct (loads_Spec w arg) as [loaded|e] eqn:Hload;
    [|now apply RunLoadError].
  destruct (expanded w s loaded) as [doc|e] eqn:Hexp;
    [|apply expanded_Err in Hexp as [? ?]; now eapply RunExpansionError; eauto].
  destruct (MarshalIndent w (Spec_of w doc) "" "  ") as [b|e] eqn:Hm;
    [|now eapply RunSerializationError; eauto].
  assert (Hr : Rendered w s (arg :: rest) doc b)
    by (exists arg, rest, loaded; auto).
  destruct (Listen w "tcp4" (listenAddress s)) as [l|e] eqn:Hl;
    [|now eapply RunBindError; eauto].
  destruct (swag.SplitHostPort (net.TCPAddr_String (net.Addr l)))
    as [[sh sp]|e] eqn:Hs; [|now eapply RunAddrError; eauto].
  assert (Hst : Started w s (arg :: rest) b l sh sp)
    by (repeat split; eauto).
  cbv zeta.
  destruct (opens s) eqn:Ho; [|now apply RunServed].
  destruct (Open w _) as [e|] eqn:Hopen;
    [now apply RunLaunchError | now apply RunLaunched].
Qed.

Lemma startup_steps s arg ev :
  In ev (startupEvents s arg) ->
  In (step_of ev) [StLoad; StExpand; StMarshal; StListen].
Proof.
  unfold startupEvents, expandEvents.
  destruct (Flatten s); simpl; intuition (subst; simpl; auto).
Qed.

Lemma prefix_steps s arg ev :
  In ev (EvLoad arg :: expandEvents s ++ [EvMarshal "" "  "])%list ->
  In (step_of ev) [StLoad; StExpand; StMarshal; StListen].
Proof.
  unfold expandEvents.
  destruct (Flatten s); simpl; intuition (subst; simpl; auto).
Qed.

(** Membership in the events of a run: the start-up part holds none of
    the later steps, the tail is explicit. *)
Local Ltac not_startup H :=
  apply startup_steps in H; simpl in H; intuition discriminate.

Local Ltac in_tail H :=
  first
    [ exfalso; not_startup H
    | apply in_app_or in H; destruct H as [H|H];
      [exfalso; not_startup H | simpl in H]
    | exfalso; apply prefix_steps in H; simpl in H; intuition discriminate
    | exfalso; simpl in H; intuition discriminate ].

(** A server is started only after a successful start-up, on the bound
    listener, with the composed chain and keep-alives enabled. *)
Lemma Run_serve s args t r l h k :
  Run w s args t r ->
  In (EvServe l h k) t ->
  exists b sh sp,
    Started w s args b l sh sp
    /\ h = fst (compose s b (displayHost sh) sp)
    /\ k = true.
Proof.
  intros HR Hin.
  destruct HR; in_tail Hin;
    (destruct Hin as [Hin|Hin];
     [injection Hin as <- <-; eauto 7 | intuition discriminate]).
Qed.

(** The browser is launched only when [opens] says so, after the server
    was started, on the composed visit URL. *)
Lemma Run_open s args t r url :
  Run w s args t r ->
  In (EvOpen url) t ->
  opens s = true
  /\ exists b l sh sp,
       Started w s args b l sh sp
       /\ url = snd (compose s b (displayHost sh) sp)
       /\ In (EvServe l (fst (compose s b (displayHost sh) sp)) true) t.
Proof.
  intros HR Hin.
  destruct HR; in_tail Hin;
    decompose [or] Hin; try discriminate; try contradiction;
    match goal with E : EvOpen _ = EvOpen _ |- _ => injection E as <- end;
    (split; [assumption|]);
    do 4 eexists;
    (split; [eassumption | split; [reflexivity|]]);
    apply in_or_app; right; simpl; auto.
Qed.

(** What is logged is the composed visit URL. *)
Lemma Run_log s args t r msg :
  Run w s args t r ->
  In (EvLog msg) t ->
  exists b l sh sp,
    Started w s args b l sh sp
    /\ msg = ["serving docs at"; snd (compose s b (displayHost sh) sp)].
Proof.
  intros HR Hin.
  destruct HR; in_tail Hin;
    decompose [or] Hin; try discriminate; try contradiction;
    match goal with E : EvLog _ = EvLog _ |- _ => injection E as <- end;
    eauto 7.
Qed.


(** *** The composed plan, branch by branch *)

Lemma compose_noUI s b sh sp :
  NoUI s = true ->
  compose s b sh sp =
  (CORS (Spec (basePath_of s) b NotFoundHandler), DocURL s).
Proof.
  intros H. unfold compose. rewrite H. destruct (urlPrefixes s). reflexivity.
Qed.

Lemma compose_redoc s b sh sp :
  NoUI s = false ->
  Flavor s = "redoc" ->
  compose s b sh sp =
  (CORS (Spec (basePath_of s) b
           (Redoc (RedocOpts.mk
                     (basePath_of s)
                     (path.Join [basePath_of s; "swagger.json"])
                     (Path s)
                     (fst (urlPrefixes s) ++ "/" ++ "redoc.standalone.js"))
                  NotFoundHandler)),
   visitURL sh sp (path.Join [basePath_of s; "docs"])).
Proof.
  intros H F. unfold compose. rewrite H, F.
  destruct (urlPrefixes s). reflexivity.
Qed.

Lemma compose_swagger s b sh sp :
  NoUI s = false ->
  Flavor s = "swagger" ->
  compose s b sh sp =
  (CORS (Spec (basePath_of s) b
           (SwaggerUI (SwaggerUIOpts.mk
                         (basePath_of s)
                         (path.Join [basePath_of s; "swagger.json"])
                         (Path s)
                         (snd (urlPrefixes s) ++ "/" ++ "swagger-ui-bundle.js")
                         (snd (urlPrefixes s) ++ "/" ++ "swagger-ui-standalone-preset.js")
                         (snd (urlPrefixes s) ++ "/" ++ "swagger-ui.css")
                         (snd (urlPrefixes s) ++ "/" ++ "favicon-16x16.png")
                         (snd (urlPrefixes s) ++ "/" ++ "favicon-32x32.png"))
                      NotFoundHandler)),
   visitURL sh sp (path.Join [basePath_of s; Path s])).
Proof.
  intros H F. unfold compose. rewrite H, F.
  destruct (urlPrefixes s). cbn [negb String.eqb Ascii.eqb Bool.eqb orb].
  rewrite orb_true_r. reflexivity.
Qed.

Lemma ServeHTTP_spec_route bp b next :
  ServeHTTP (CORS (Spec bp b next)) (spec_route bp) =
  mkResponse 200 (SpecDocument b) true.
Proof.
  cbn [ServeHTTP]. rewrite String.eqb_refl. reflexivity.
Qed.

(** C1. With [--no-ui] the chain is the document route alone under the
    cross-origin layer: no UI route, the rendered bytes at
    [basePath/swagger.json], 404 elsewhere, and the visit URL is the
    [--doc-url] as given; every run that starts a server serves this chain
    with the bytes of the document processor and logs that URL. *)
Theorem noUI_serves_only_the_document s :
  NoUI s = true ->
  (forall b sh sp,
     compose s b sh sp = (CORS (Spec (basePath_of s) b NotFoundHandler), DocURL s)
     /\ ui_routes (fst (compose s b sh sp)) = []
     /\ ServeHTTP (fst (compose s b sh sp)) (spec_route (basePath_of s))
        = mkResponse 200 (SpecDocument b) true
     /\ (forall url, url <> spec_route (basePath_of s) ->
           ServeHTTP (fst (compose s b sh sp)) url
           = mkResponse 404 NotFoundPage true))
  /\ (forall args l h k,
        In (EvServe l h k) (fst (Execute w s args)) ->
        exists b sh sp,
          Started w s args b l sh sp
          /\ h = CORS (Spec (basePath_of s) b NotFoundHandler)
          /\ In (EvLog ["serving docs at"; DocURL s]) (fst (Execute w s args))).
Proof.
  intros HnoUI. split.
  - intros b sh sp. rewrite (compose_noUI _ _ _ _ HnoUI). cbn [fst].
    repeat split.
    + apply ServeHTTP_spec_route.
    + intros url Hurl. cbn [ServeHTTP].
      apply String.eqb_neq in Hurl. rewrite Hurl. reflexivity.
  - intros args l h k Hin.
    pose proof (Execute_Run s args) as HR.
    destruct (Run_serve _ _ _ _ _ _ _ HR Hin) as (b & sh & sp & Hst & -> & ->).
    exists b, sh, sp. rewrite (compose_noUI _ _ _ _ HnoUI). cbn [fst].
    repeat split; try apply Hst.
    assert (Ho : opens s = false)
      by (unfold opens; rewrite HnoUI; apply andb_false_r).
    revert Hin.
    destruct HR; intros Hin; in_tail Hin; try congruence.
    apply in_or_app; right.
    match goal with
    | H : Started _ _ _ ?b' _ ?sh' ?sp' |- _ =>
        rewrite (compose_noUI s b' (displayHost sh') sp' HnoUI)
    end.
    simpl; auto.
Qed.

(** C2. With the UI on and flavor [redoc], the visit URL is
    [http://displayHost:boundPort] followed by [path.Join(basePath, "docs")]
    whatever [--path] says, while the UI route is registered under
    [--path]; every run logs and opens that URL. *)
Theorem redoc_visit_URL_is_fixed_to_docs s :
  NoUI s = false ->
  Flavor s = "redoc" ->
  (forall b sh sp,
     snd (compose s b sh sp)
     = "http://" ++ sh ++ ":" ++ strconv.Itoa sp ++ path.Join [basePath_of s; "docs"]
     /\ (forall p, snd (compose (with_Path s p) b sh sp) = snd (compose s b sh sp))
     /\ ui_routes (fst (compose s b sh sp)) = [ui_route (basePath_of s) (Path s)]
     /\ exists opts,
          fst (compose s b sh sp)
          = CORS (Spec (basePath_of s) b (Redoc opts NotFoundHandler))
          /\ RedocOpts.BasePath opts = basePath_of s
          /\ RedocOpts.Path opts = Path s
          /\ RedocOpts.SpecURL opts = spec_route (basePath_of s))
  /\ (forall args ev,
        In ev (fst (Execute w s args)) ->
        forall url, ev = EvLog ["serving docs at"; url] \/ ev = EvOpen url ->
        exists b l sh sp,
          Started w s args b l sh sp
          /\ url = "http://" ++ displayHost sh ++ ":" ++ strconv.Itoa sp
                   ++ path.Join [basePath_of s; "docs"]).
Proof.
  intros HnoUI Hflavor. split.
  - intros b sh sp. rewrite (compose_redoc _ _ _ _ HnoUI Hflavor).
    split; [reflexivity|]. split; [|split; [reflexivity|]].
    + intros p. now rewrite (compose_redoc (with_Path s p) b sh sp HnoUI Hflavor).
    + eexists. repeat split.
  - intros args ev Hin url [-> | ->]; pose proof (Execute_Run s args) as HR.
    + destruct (Run_log _ _ _ _ _ HR Hin) as (b & l & sh & sp & Hst & Heq).
      exists b, l, sh, sp. split; [assumption|].
      rewrite (compose_redoc _ _ _ _ HnoUI Hflavor) in Heq. now injection Heq.
    + destruct (Run_open _ _ _ _ _ HR Hin)
        as (_ & b & l & sh & sp & Hst & Heq & _).
      exists b, l, sh, sp. split; [assumption|].
      now rewrite (compose_redoc _ _ _ _ HnoUI Hflavor) in Heq.
Qed.

(** C3. With the UI on and flavor [swagger], one swagger-UI route is
    registered at [basePath/uiPath], pointed at [basePath/swagger.json],
    and the visit URL is [http://displayHost:boundPort] followed by
    [path.Join(basePath, uiPath)]; every run logs and opens that URL. *)
Theorem swagger_route_and_visit_URL_follow_uiPath s :
  NoUI s = false ->
  Flavor s = "swagger" ->
  (forall b sh sp,
     (exists opts,
        fst (compose s b sh sp) = CORS (Spec (basePath_of s) b (SwaggerUI opts NotFoundHandler))
        /\ SwaggerUIOpts.BasePath opts = basePath_of s
        /\ SwaggerUIOpts.Path opts = Path s
        /\ SwaggerUIOpts.SpecURL opts = spec_route (basePath_of s)
        /\ (ui_route (basePath_of s) (Path s) <> spec_route (basePath_of s) ->
            ServeHTTP (fst (compose s b sh sp)) (ui_route (basePath_of s) (Path s))
            = mkResponse 200 (SwaggerUIPage opts) true))
     /\ ui_routes (fst (compose s b sh sp)) = [ui_route (basePath_of s) (Path s)]
     /\ snd (compose s b sh sp)
        = "http://" ++ sh ++ ":" ++ strconv.Itoa sp ++ path.Join [basePath_of s; Path s])
  /\ (forall args ev,
        In ev (fst (Execute w s args)) ->
        forall url, ev = EvLog ["serving docs at"; url] \/ ev = EvOpen url ->
        exists b l sh sp,
          Started w s args b l sh sp
          /\ url = "http://" ++ displayHost sh ++ ":" ++ strconv.Itoa sp
                   ++ path.Join [basePath_of s; Path s]).
Proof.
  intros HnoUI Hflavor. split.
  - intros b sh sp. rewrite (compose_swagger _ _ _ _ HnoUI Hflavor).
    cbn [fst snd]. repeat split.
    eexists. repeat split.
    intros Hne. cbn [ServeHTTP SwaggerUIOpts.BasePath SwaggerUIOpts.Path].
    apply String.eqb_neq in Hne. rewrite Hne, String.eqb_refl. reflexivity.
  - intros args ev Hin url [-> | ->]; pose proof (Execute_Run s args) as HR.
    + destruct (Run_log _ _ _ _ _ HR Hin) as (b & l & sh & sp & Hst & Heq).
      exists b, l, sh, sp. split; [assumption|].
      rewrite (compose_swagger _ _ _ _ HnoUI Hflavor) in Heq. now injection Heq.
    + destruct (Run_open _ _ _ _ _ HR Hin)
        as (_ & b & l & sh & sp & Hst & Heq & _).
      exists b, l, sh, sp. split; [assumption|].
      now rewrite (compose_swagger _ _ _ _ HnoUI Hflavor) in Heq.
Qed.

Lemma prefix_append p x : String.prefix p (p ++ x) = true.
Proof.
  induction p as [|c p IH]; cbn [String.append String.prefix].
  - now destruct x.
  - destruct (ascii_dec c c) as [_|N]; [exact IH | now elim N].
Qed.

Lemma prefix_append2 p q x : String.prefix (p ++ q) (p ++ q ++ x) = true.
Proof.
  induction p as [|c p IH]; cbn [String.append String.prefix].
  - apply prefix_append.
  - destruct (ascii_dec c c) as [_|N]; [exact IH | now elim N].
Qed.

Lemma urlPrefixes_override s :
  SourceUrL s <> "" -> urlPrefixes s = (SourceUrL s, SourceUrL s).
Proof.
  intros H. unfold urlPrefixes. apply String.eqb_neq in H. now rewrite H.
Qed.

(** C5. A non-empty [--source_url] is the asset prefix of both flavors,
    so every asset URL of the composed chain is the override, a slash
    and the asset's file name; an empty one leaves each flavor its own
    default prefix.  The redoc chain has the standalone script, the
    swagger chain the bundle, the preset, the stylesheet and the two
    favicons. *)
Theorem source_url_is_the_asset_prefix s b sh sp :
  (SourceUrL s <> "" ->
     urlPrefixes s = (SourceUrL s, SourceUrL s)
     /\ forall url, In url (assetURLs (fst (compose s b sh sp))) ->
          String.prefix (SourceUrL s ++ "/") url = true
          /\ exists name, url = SourceUrL s ++ "/" ++ name)
  /\ (SourceUrL s = "" ->
      urlPrefixes s =
      (DefaultRedocCloudStaticFileUrLPrefix, DefaultSwaggerCloudStaticFileUrLPrefix))
  /\ (NoUI s = false -> Flavor s = "redoc" ->
      assetURLs (fst (compose s b sh sp))
      = [fst (urlPrefixes s) ++ "/" ++ "redoc.standalone.js"])
  /\ (NoUI s = false -> Flavor s = "swagger" ->
      assetURLs (fst (compose s b sh sp))
      = [snd (urlPrefixes s) ++ "/" ++ "swagger-ui-bundle.js";
         snd (urlPrefixes s) ++ "/" ++ "swagger-ui-standalone-preset.js";
         snd (urlPrefixes s) ++ "/" ++ "swagger-ui.css";
         snd (urlPrefixes s) ++ "/" ++ "favicon-16x16.png";
         snd (urlPrefixes s) ++ "/" ++ "favicon-32x32.png"]).
Proof.
  repeat split.
  - now apply urlPrefixes_override.
  - revert H0. unfold compose. rewrite (urlPrefixes_override s H).
    destruct (NoUI s); cbn [negb];
      [|destruct (String.eqb (Flavor s) "redoc");
        [|destruct (negb (String.eqb (DocURL s) "") || String.eqb (Flavor s) "swagger")]];
      cbn [fst assetURLs RedocOpts.RedocURL SwaggerUIOpts.SwaggerURL
           SwaggerUIOpts.SwaggerPresetURL SwaggerUIOpts.SwaggerStylesURL
           SwaggerUIOpts.Favicon16 SwaggerUIOpts.Favicon32 strings.Join In];
      intros Hin; decompose [or] Hin; try contradiction; subst url;
      apply prefix_append2.
  - revert H0. unfold compose. rewrite (urlPrefixes_override s H).
    destruct (NoUI s); cbn [negb];
      [|destruct (String.eqb (Flavor s) "redoc");
        [|destruct (negb (String.eqb (DocURL s) "") || String.eqb (Flavor s) "swagger")]];
      cbn [fst assetURLs RedocOpts.RedocURL SwaggerUIOpts.SwaggerURL
           SwaggerUIOpts.SwaggerPresetURL SwaggerUIOpts.SwaggerStylesURL
           SwaggerUIOpts.Favicon16 SwaggerUIOpts.Favicon32 strings.Join In];
      intros Hin; decompose [or] Hin; try contradiction; subst url;
      eexists; reflexivity.
  - intros H. unfold urlPrefixes. now rewrite H.
  - intros HnoUI Hflavor. now rewrite (compose_redoc _ _ _ _ HnoUI Hflavor).
  - intros HnoUI Hflavor. now rewrite (compose_swagger _ _ _ _ HnoUI Hflavor).
Qed.

Lemma Rendered_inv s arg rest doc b :
  Rendered w s (arg :: rest) doc b ->
  exists loaded,
    loads_Spec w arg = Ok loaded
    /\ expanded w s loaded = Ok doc
    /\ MarshalIndent w (Spec_of w doc) "" "  " = Ok b.
Proof.
  intros (arg' & rest' & loaded & Heq & Hl & He & Hm).
  injection Heq as <- <-. eauto.
Qed.

Lemma Rendered_cons s args doc b :
  Rendered w s args doc b -> exists arg rest, args = arg :: rest.
Proof.
  intros (arg & rest & _ & -> & _). eauto.
Qed.

(** No step of an invocation is taken twice. *)
Lemma Run_steps_once s args t r :
  Run w s args t r -> NoDup (map step_of t).
Proof.
  destruct 1; unfold startupEvents, expandEvents;
    destruct (Flatten s); cbn [map app step_of];
    repeat (constructor; [simpl; intuition discriminate|]); constructor.
Qed.


(** C8. A missing argument, and a failed load, expansion, serialization
    or bind, end the command at once with that very error: no server is
    started and no browser is launched, and a listener was asked for only
    if the failure is the bind error itself; without arguments nothing is
    attempted at all; and in every run no step is taken twice. *)
Theorem startup_failures_are_fatal s args e :
  StartupFailure w s args e ->
  snd (Execute w s args) = Some e
  /\ (forall ev, In ev (fst (Execute w s args)) ->
        is_serve ev = false /\ is_open ev = false
        /\ (is_listen ev = true ->
            Listen w "tcp4" (net.JoinHostPort (Host s) (strconv.Itoa (Port s)))
            = Err e))
  /\ (args = [] -> Execute w s args = ([], Some usageError))
  /\ NoDup (map step_of (fst (Execute w s args))).
Proof.
  intros HF.
  assert (Hexit : snd (Execute w s args) = Some e
                  /\ forall ev, In ev (fst (Execute w s args)) ->
                       In (step_of ev) [StLoad; StExpand; StMarshal; StListen]
                       /\ (step_of ev = StListen ->
                           Listen w "tcp4" (listenAddress s) = Err e)).
  { destruct HF as [ | arg rest e Hl | arg rest loaded e Hl Hf He
                     | arg rest loaded doc e Hl He Hm | args doc b e Hr Hb ].
    - split; [reflexivity | intros ev []].
    - rewrite Execute_unfold, Hl. split; [reflexivity|].
      simpl. intuition (subst; simpl in *; auto; discriminate).
    - rewrite Execute_unfold, Hl. unfold expanded. rewrite Hf, He.
      split; [reflexivity|].
      simpl. intuition (subst; simpl in *; auto; discriminate).
    - rewrite Execute_unfold, Hl, He, Hm. split; [reflexivity|].
      intros ev Hin. split; [now apply prefix_steps in Hin|].
      revert Hin. unfold expandEvents. destruct (Flatten s); simpl;
        intuition (subst; simpl in *; discriminate).
    - destruct (Rendered_cons _ _ _ _ Hr) as (arg & rest & ->).
      apply Rendered_inv in Hr as (loaded & Hl & He & Hm).
      rewrite Execute_unfold, Hl, He, Hm, Hb. split; [reflexivity|].
      intros ev Hin. split; [now apply startup_steps in Hin | trivial]. }
  destruct Hexit as [Hres Hsteps]. split; [assumption|]. split; [|split].
  - intros ev Hin. destruct (Hsteps ev Hin) as [Hst Hlisten].
    destruct ev; simpl in Hst |- *;
      repeat split; try reflexivity; try (intros; discriminate);
      try (exfalso; intuition discriminate).
    intros _. now apply Hlisten.
  - now intros ->.
  - eapply Run_steps_once, Execute_Run.
Qed.

(** C9. When the browser launch is attempted and fails, the command
    returns the launch error; the server was already started, its
    outcome is not awaited, and nothing is logged. *)
Theorem launch_failure_is_fatal s args url e :
  In (EvOpen url) (fst (Execute w s args)) ->
  Open w url = Some e ->
  snd (Execute w s args) = Some e
  /\ (exists pre l h,
        fst (Execute w s args) = (pre ++ [EvServe l h true; EvOpen url])%list)
  /\ ~ In EvAwait (fst (Execute w s args)).
Proof.
  intros Hin Hopen. pose proof (Execute_Run s args) as HR.
  revert Hin. destruct HR; intros Hin; in_tail Hin;
    decompose [or] Hin; try discriminate; try contradiction;
    match goal with E : EvOpen _ = EvOpen _ |- _ => injection E as <- end;
    try congruence.
  assert (e0 = e) by congruence. subst e0.
  repeat split; eauto.
  intros Hin'. in_tail Hin'. decompose [or] Hin'; try discriminate; contradiction.
Qed.


Lemma Rendered_fun s args doc b doc' b' :
  Rendered w s args doc b -> Rendered w s args doc' b' -> doc = doc' /\ b = b'.
Proof.
  intros (arg & rest & loaded & -> & Hl & He & Hm) Hr'.
  apply Rendered_inv in Hr' as (loaded' & Hl' & He' & Hm').
  assert (loaded' = loaded) by congruence. subst loaded'.
  assert (doc' = doc) by congruence. subst doc'.
  split; congruence.
Qed.

Lemma Started_fun s args b l sh sp b' l' sh' sp' :
  Started w s args b l sh sp -> Started w s args b' l' sh' sp' ->
  b = b' /\ l = l' /\ sh = sh' /\ sp = sp'.
Proof.
  intros ([doc Hr] & Hl & Hs) ([doc' Hr'] & Hl' & Hs').
  destruct (Rendered_fun _ _ _ _ _ _ Hr Hr') as [_ ->].
  assert (l' = l) by congruence. subst l'.
  rewrite Hs in Hs'. injection Hs' as <- <-. auto.
Qed.


End Runs.

(** ** Two runs *)

Section Determinism.

Context {Document Swagger : Type} (w1 w2 : World Document Swagger).

(** Both runs use the same encoder: [json.MarshalIndent] and the model
    behind a document are library functions, not part of the machine a
    run happens on. *)
Hypothesis same_model : forall doc, Spec_of w1 doc = Spec_of w2 doc.
Hypothesis same_encoder :
  forall sw prefix indent,
    MarshalIndent w1 sw prefix indent = MarshalIndent w2 sw prefix indent.


End Determinism.

(** C1 at [serve --no-ui --doc-url http://example.com/viewer]. *)
Lemma noUI_serves_only_the_document_witness :
  exists b sh sp,
    Started Demo.browser Demo.noui ["petstore.json"] b
            (net.mkListener (net.mkTCPAddr "0.0.0.0" 49152)) sh sp
    /\ CORS (Spec "/" "  {swagger:petstore.json}" NotFoundHandler)
       = CORS (Spec (basePath_of Demo.noui) b NotFoundHandler)
    /\ In (EvLog ["serving docs at"; DocURL Demo.noui])
          (fst (Execute Demo.browser Demo.noui ["petstore.json"])).
Proof.
  refine (proj2 (noUI_serves_only_the_document Demo.browser Demo.noui _)
                ["petstore.json"] _ _ true _).
  - reflexivity.
  - vm_compute. tauto.
Defined.

(** ** The theorems at work on [Demo] *)

(** C2 at [serve --path ui]: the page is served under [/ui], the visit
    URL still says [/docs]. *)
Lemma redoc_visit_URL_is_fixed_to_docs_witness :
  snd (compose (with_Path Demo.defaults "ui") "{}" "localhost" 49152)
  = "http://localhost:49152/docs"
  /\ ui_routes (fst (compose (with_Path Demo.defaults "ui") "{}" "localhost" 49152))
     = ["/ui"].
Proof.
  destruct (redoc_visit_URL_is_fixed_to_docs
              Demo.browser (with_Path Demo.defaults "ui") eq_refl eq_refl)
    as [Hplan _].
  destruct (Hplan "{}" "localhost" 49152) as (Hvisit & _ & Hroutes & _).
  split; [exact Hvisit | exact Hroutes].
Defined.

(** C3 at [serve -F swagger --base-path /api --path ui]. *)
Lemma swagger_route_and_visit_URL_follow_uiPath_witness :
  ui_routes (fst (compose Demo.swaggerui "{}" "127.0.0.1" 8080)) = ["/api/ui"]
  /\ snd (compose Demo.swaggerui "{}" "127.0.0.1" 8080)
     = "http://127.0.0.1:8080/api/ui".
Proof.
  destruct (swagger_route_and_visit_URL_follow_uiPath
              Demo.browser Demo.swaggerui eq_refl eq_refl)
    as [Hplan _].
  destruct (Hplan "{}" "127.0.0.1" 8080) as (_ & Hroutes & Hvisit).
  split; [exact Hroutes | exact Hvisit].
Defined.


(** C5 at [serve -F swagger -S https://example.com/assets]. *)
Lemma source_url_is_the_asset_prefix_witness :
  assetURLs (fst (compose (Demo.mirrored "swagger") "{}" "localhost" 49152))
  = ["https://example.com/assets/swagger-ui-bundle.js";
     "https://example.com/assets/swagger-ui-standalone-preset.js";
     "https://example.com/assets/swagger-ui.css";
     "https://example.com/assets/favicon-16x16.png";
     "https://example.com/assets/favicon-32x32.png"]
  /\ forall url,
       In url (assetURLs (fst (compose (Demo.mirrored "redoc") "{}" "localhost" 49152))) ->
       String.prefix "https://example.com/assets/" url = true.
Proof.
  split.
  - exact (proj2 (proj2 (proj2
             (source_url_is_the_asset_prefix
                (Demo.mirrored "swagger") "{}" "localhost" 49152)))
             eq_refl eq_refl).
  - intros url Hin.
    destruct (source_url_is_the_asset_prefix
                (Demo.mirrored "redoc") "{}" "localhost" 49152) as [Hover _].
    destruct Hover as [_ Hall]; [discriminate|].
    exact (proj1 (Hall url Hin)).
Defined.



(** C8 at [serve] without argument and at a file that does not load. *)
Lemma startup_failures_are_fatal_witness :
  Execute Demo.browser Demo.defaults [] = ([], Some usageError)
  /\ snd (Execute Demo.browser Demo.defaults [""])
     = Some "open : no such file or directory".
Proof.
  split.
  - exact (proj1 (proj2 (proj2
             (startup_failures_are_fatal Demo.browser Demo.defaults [] usageError
                (UsageFailure _ _ Demo.browser Demo.defaults)))) eq_refl).
  - exact (proj1
             (startup_failures_are_fatal Demo.browser Demo.defaults [""] _
                (LoadError _ _ Demo.browser Demo.defaults "" [] _ eq_refl))).
Defined.

(** C9 at [serve] on a machine without a browser. *)
Lemma launch_failure_is_fatal_witness :
  snd (Execute Demo.headless Demo.defaults ["petstore.json"])
  = Some "exec: xdg-open: executable file not found in $PATH"
  /\ ~ In EvAwait (fst (Execute Demo.headless Demo.defaults ["petstore.json"])).
Proof.
  destruct (launch_failure_is_fatal
              Demo.headless Demo.defaults ["petstore.json"]
              "http://localhost:49152/docs"
              "exec: xdg-open: executable file not found in $PATH")
    as (Hres & _ & Hawait).
  - vm_compute. tauto.
  - reflexivity.
  - split; [exact Hres | exact Hawait].
Defined.


(** * Further properties of [Execute] *)

Section Options.

Context {Document Swagger : Type} (w : World Document Swagger).

(** [Execute] reads a configuration through [Flatten], [Host], [Port],
    [NoOpen], [NoUI] and the composed plan only. *)
Lemma Execute_ext s s' args :
  Flatten s' = Flatten s ->
  Host s' = Host s ->
  Port s' = Port s ->
  NoOpen s' = NoOpen s ->
  NoUI s' = NoUI s ->
  (forall b sh sp, compose s' b sh sp = compose s b sh sp) ->
  Execute w s' args = Execute w s args.
Proof.
  intros Hf Hh Hp Ho Hu Hc.
  destruct args as [|arg rest]; [reflexivity|].
  rewrite !Execute_unfold.
  unfold expanded, startupEvents, expandEvents, listenAddress, opens.
  rewrite Hf, Hh, Hp, Ho, Hu.
  destruct (loads_Spec w arg) as [loaded|]; [|reflexivity].
  destruct (if Flatten s then Expanded w loaded expandOptions else Ok loaded)
    as [doc|]; [|reflexivity].
  destruct (MarshalIndent w _ _ _) as [b|]; [|reflexivity].
  destruct (Listen w _ _) as [l|]; [|reflexivity].
  destruct (swag.SplitHostPort _) as [[sh sp]|]; [|reflexivity].
  now rewrite Hc.
Qed.

Lemma compose_ui_ignores_DocURL s u b sh sp :
  NoUI s = false ->
  Flavor s = "redoc" \/ Flavor s = "swagger" ->
  compose (with_DocURL s u) b sh sp = compose s b sh sp.
Proof.
  intros HnoUI [Hf|Hf].
  - now rewrite (compose_redoc (with_DocURL s u) b sh sp HnoUI Hf),
                (compose_redoc s b sh sp HnoUI Hf).
  - now rewrite (compose_swagger (with_DocURL s u) b sh sp HnoUI Hf),
                (compose_swagger s b sh sp HnoUI Hf).
Qed.

(** X1. With the UI on and flavor [redoc] or [swagger], [--doc-url] has
    no effect at all: the run with any doc URL is, event for event and in
    its result, the run without it. *)
Theorem doc_url_is_ignored_with_ui s u args :
  NoUI s = false ->
  Flavor s = "redoc" \/ Flavor s = "swagger" ->
  Execute w (with_DocURL s u) args = Execute w s args.
Proof.
  intros HnoUI Hf. apply Execute_ext; try reflexivity.
  intros b sh sp. now apply compose_ui_ignores_DocURL.
Qed.

(** X2. An empty [--base-path] and [--base-path /] give the same run. *)
Theorem empty_base_path_is_root s args :
  BasePath s = "" ->
  Execute w (with_BasePath s "/") args = Execute w s args.
Proof.
  intros Hbp. apply Execute_ext; try reflexivity.
  intros b sh sp. unfold compose, basePath_of, urlPrefixes.
  cbn [with_BasePath BasePath DocURL NoUI Flavor Path SourceUrL].
  rewrite Hbp. reflexivity.
Qed.

Lemma compose_fallback s b sh sp :
  NoUI s = false ->
  Flavor s <> "redoc" ->
  DocURL s <> "" ->
  compose s b sh sp =
  (CORS (Spec (basePath_of s) b
           (SwaggerUI (SwaggerUIOpts.mk
                         (basePath_of s)
                         (path.Join [basePath_of s; "swagger.json"])
                         (Path s)
                         (snd (urlPrefixes s) ++ "/" ++ "swagger-ui-bundle.js")
                         (snd (urlPrefixes s) ++ "/" ++ "swagger-ui-standalone-preset.js")
                         (snd (urlPrefixes s) ++ "/" ++ "swagger-ui.css")
                         (snd (urlPrefixes s) ++ "/" ++ "favicon-16x16.png")
                         (snd (urlPrefixes s) ++ "/" ++ "favicon-32x32.png"))
                      NotFoundHandler)),
   visitURL sh sp (path.Join [basePath_of s; Path s])).
Proof.
  intros H F D. unfold compose. rewrite H.
  apply String.eqb_neq in F, D. rewrite F, D.
  destruct (urlPrefixes s). reflexivity.
Qed.

Lemma compose_no_flavor s b sh sp :
  NoUI s = false ->
  Flavor s <> "redoc" ->
  Flavor s <> "swagger" ->
  DocURL s = "" ->
  compose s b sh sp = (CORS (Spec (basePath_of s) b NotFoundHandler), "").
Proof.
  intros H F F' D. unfold compose. rewrite H, D.
  apply String.eqb_neq in F, F'. rewrite F, F'.
  destruct (urlPrefixes s). reflexivity.
Qed.

(** X3. With the UI on, any flavor other than [redoc] together with a
    non-empty [--doc-url] gets the swagger-UI chain, whatever the flavor
    string is, and the doc URL given is replaced: the URL visited is the
    local one under [basePath/uiPath]. *)
Theorem doc_url_turns_on_swagger_ui s b sh sp :
  NoUI s = false ->
  Flavor s <> "redoc" ->
  DocURL s <> "" ->
  compose s b sh sp = compose (mkServeCmd (BasePath s) "swagger" "" (NoOpen s)
                                 (NoUI s) (Flatten s) (Port s) (Host s) (Path s)
                                 (SourceUrL s)) b sh sp
  /\ ui_routes (fst (compose s b sh sp)) = [ui_route (basePath_of s) (Path s)]
  /\ snd (compose s b sh sp)
     = "http://" ++ sh ++ ":" ++ strconv.Itoa sp
       ++ path.Join [basePath_of s; Path s].
Proof.
  intros HnoUI F D.
  rewrite (compose_fallback s b sh sp HnoUI F D).
  rewrite (compose_swagger (mkServeCmd _ "swagger" "" _ _ _ _ _ _ _) b sh sp
             HnoUI eq_refl).
  repeat split.
Qed.

(** X4. With the UI on, a flavor that is neither [redoc] nor [swagger]
    and no [--doc-url], no UI route is registered and the visit URL is
    empty; a run that starts its server then logs the empty URL and,
    unless [--no-open] is set, launches the browser on it. *)
Theorem unknown_flavor_visits_the_empty_URL s args l h k :
  NoUI s = false ->
  Flavor s <> "redoc" ->
  Flavor s <> "swagger" ->
  DocURL s = "" ->
  In (EvServe l h k) (fst (Execute w s args)) ->
  ui_routes h = []
  /\ (NoOpen s = false -> In (EvOpen "") (fst (Execute w s args)))
  /\ (forall ev url, In ev (fst (Execute w s args)) ->
        ev = EvLog ["serving docs at"; url] \/ ev = EvOpen url -> url = "").
Proof.
  intros HnoUI F F' D Hin. pose proof (Execute_Run w s args) as HR.
  destruct (Run_serve _ _ _ _ _ _ _ _ HR Hin) as (b & sh & sp & Hst & -> & _).
  rewrite (compose_no_flavor _ _ _ _ HnoUI F F' D). split; [reflexivity|].
  split.
  - intros Hno.
    assert (Ho : opens s = true) by (unfold opens; now rewrite Hno, HnoUI).
    destruct Hst as ([doc Hr] & Hl & Hs).
    destruct (Rendered_cons _ _ _ _ _ Hr) as (arg & rest & ->).
    apply Rendered_inv in Hr as (loaded & Hload & He & Hm).
    rewrite Execute_unfold, Hload, He, Hm, Hl, Hs. cbv zeta.
    rewrite Ho, (compose_no_flavor _ _ _ _ HnoUI F F' D). cbn [snd].
    destruct (Open w ""); cbn [fst]; apply in_or_app; right; simpl; auto.
  - intros ev url Hev [-> | ->].
    + destruct (Run_log _ _ _ _ _ _ HR Hev) as (b' & l' & sh' & sp' & _ & Heq).
      rewrite (compose_no_flavor _ _ _ _ HnoUI F F' D) in Heq. now injection Heq.
    + destruct (Run_open _ _ _ _ _ _ HR Hev)
        as (_ & b' & l' & sh' & sp' & _ & Heq & _).
      now rewrite (compose_no_flavor _ _ _ _ HnoUI F F' D) in Heq.
Qed.

End Options.

Section Order.

Context {Document Swagger : Type} (w : World Document Swagger).

Lemma StronglySorted_middle {A} (R : A -> A -> Prop) l1 a l2 :
  StronglySorted R (l1 ++ a :: l2) ->
  Forall (fun x => R x a) l1 /\ Forall (R a) l2.
Proof.
  induction l1 as [|x l1 IH]; cbn [app]; intros H;
    apply StronglySorted_inv in H as [H Hall].
  - split; [constructor | exact Hall].
  - destruct (IH H) as [H1 H2]. split; [|exact H2].
    constructor; [|exact H1].
    rewrite Forall_forall in Hall. apply Hall, in_or_app. right. left. reflexivity.
Qed.

Lemma Run_in_program_order s args t r :
  Run w s args t r ->
  StronglySorted lt (map (fun ev => step_rank (step_of ev)) t).
Proof.
  destruct 1; unfold startupEvents, expandEvents;
    destruct (Flatten s); cbn [map app step_of step_rank];
    repeat (constructor; [|repeat (constructor; [lia|]); constructor]);
    constructor.
Qed.

(** X5. The steps of every run are taken in the order of the program
    text, each at most once: load, expand, serialize, listen, start the
    server, launch the browser, log, wait.  So whenever two events of a
    run are in the other order of steps, the later step's event comes
    later: the browser is never launched before the listener is bound and
    the server started. *)
Theorem steps_follow_the_program_order s args :
  StronglySorted lt
    (map (fun ev => step_rank (step_of ev)) (fst (Execute w s args)))
  /\ (forall pre url post,
        fst (Execute w s args) = (pre ++ EvOpen url :: post)%list ->
        (exists l h, In (EvServe l h true) pre)
        /\ (exists network address, In (EvListen network address) pre)
        /\ forall ev, In ev post -> ev = EvAwait \/ exists msg, ev = EvLog msg).
Proof.
  pose proof (Execute_Run w s args) as HR.
  pose proof (Run_in_program_order _ _ _ _ HR) as Hsorted.
  split; [exact Hsorted|].
  intros pre url post Heq.
  assert (Hopen : In (EvOpen url) (fst (Execute w s args)))
    by (rewrite Heq; apply in_or_app; right; left; reflexivity).
  destruct (Run_open _ _ _ _ _ _ HR Hopen)
    as (_ & b & l & sh & sp & Hst & _ & Hserve).
  rewrite Heq in Hsorted, Hserve.
  rewrite map_app in Hsorted. cbn [map step_of step_rank] in Hsorted.
  assert (Hlisten : In (EvListen "tcp4" (listenAddress s)) (fst (Execute w s args))).
  { destruct Hst as ([doc Hr] & Hl & Hs).
    destruct (Rendered_cons _ _ _ _ _ Hr) as (arg & rest & ->).
    apply Rendered_inv in Hr as (loaded & Hload & He & Hm).
    rewrite Execute_unfold, Hload, He, Hm, Hl, Hs. cbv zeta.
    assert (Hin : forall tl, In (EvListen "tcp4" (listenAddress s))
                               (startupEvents s arg ++ tl)%list).
    { intros tl. apply in_or_app; left. unfold startupEvents.
      right. apply in_or_app; right. simpl; auto. }
    destruct (opens s); [destruct (Open w _)|]; apply Hin. }
  rewrite Heq in Hlisten.
  (* what comes after the launch has a larger rank, what comes before a
     smaller one *)
  assert (Hafter : forall ev, In ev post -> (5 < step_rank (step_of ev))%nat).
  { intros ev Hev.
    apply StronglySorted_middle in Hsorted as [_ Hall].
    rewrite Forall_forall in Hall. apply Hall, in_map_iff. eauto. }
  assert (Hbefore : forall ev, (step_rank (step_of ev) < 5)%nat ->
                    In ev (pre ++ EvOpen url :: post)%list -> In ev pre).
  { intros ev Hrank Hev. apply in_app_or in Hev as [Hev|[<-|Hev]];
      [assumption | simpl in Hrank; lia | apply Hafter in Hev; lia]. }
  repeat split.
  - exists l, (fst (compose s b (displayHost sh) sp)).
    apply Hbefore; [simpl; lia | exact Hserve].
  - exists "tcp4", (listenAddress s).
    apply Hbefore; [simpl; lia | exact Hlisten].
  - intros ev Hev. apply Hafter in Hev.
    destruct ev; simpl in Hev; try lia; eauto.
Qed.

(** X6. A start-up that renders the document and binds an IPv4 listener
    always starts the server, once, on that listener, with keep-alives
    and the chain composed for the bound host and port: the address of
    such a listener never fails to split.  When no launch is attempted or
    the launch succeeds, the command then logs the visit URL, waits, and
    returns what the server reports. *)
Theorem bound_listener_is_served s args doc b l :
  Rendered w s args doc b ->
  Listen w "tcp4" (net.JoinHostPort (Host s) (strconv.Itoa (Port s))) = Ok l ->
  tcp4 (net.Addr l) ->
  let sh := displayHost (net.IP (net.Addr l)) in
  let sp := net.Port (net.Addr l) in
  let h := fst (compose s b sh sp) in
  let visit := snd (compose s b sh sp) in
  In (EvServe l h true) (fst (Execute w s args))
  /\ (forall l' h' k', In (EvServe l' h' k') (fst (Execute w s args)) ->
        l' = l /\ h' = h /\ k' = true)
  /\ (opens s = false \/ Open w visit = None ->
      snd (Execute w s args) = Serve w l h
      /\ exists pre,
           fst (Execute w s args)
           = (pre ++ [EvLog ["serving docs at"; visit]; EvAwait])%list).
Proof.
  intros Hr Hl Htcp sh sp h visit.
  assert (Hs := SplitHostPort_TCPAddr _ Htcp).
  assert (Hst : Started w s args b l (net.IP (net.Addr l)) (net.Port (net.Addr l)))
    by (repeat split; eauto).
  destruct (Rendered_cons _ _ _ _ _ Hr) as (arg & rest & ->).
  apply Rendered_inv in Hr as (loaded & Hload & He & Hm).
  split; [|split].
  - rewrite Execute_unfold, Hload, He, Hm.
    fold (listenAddress s) in Hl. rewrite Hl, Hs. cbv zeta.
    destruct (opens s); [destruct (Open w _)|];
      cbn [fst]; apply in_or_app; right; left; reflexivity.
  - intros l' h' k' Hin. pose proof (Execute_Run w s (arg :: rest)) as HR.
    destruct (Run_serve _ _ _ _ _ _ _ _ HR Hin) as (b' & sh' & sp' & Hst' & -> & ->).
    destruct (Started_fun _ _ _ _ _ _ _ _ _ _ _ Hst Hst') as (<- & <- & <- & <-).
    auto.
  - intros Hgo. rewrite Execute_unfold, Hload, He, Hm.
    fold (listenAddress s) in Hl. rewrite Hl, Hs. cbv zeta.
    fold sh sp. fold h visit.
    destruct (opens s).
    + destruct Hgo as [Hgo|Hgo]; [discriminate|]. rewrite Hgo.
      split; [reflexivity|].
      exists (startupEvents s arg ++ [EvServe l h true; EvOpen visit])%list.
      cbn [fst]. now rewrite <- app_assoc.
    + split; [reflexivity|].
      exists (startupEvents s arg ++ [EvServe l h true])%list.
      cbn [fst]. now rewrite <- app_assoc.
Qed.


(** X8. The line [serving docs at] is logged exactly in the runs that go
    on to wait for the server, once, and what it shows is the URL that was
    handed to the browser, if one was launched. *)
Theorem logged_iff_awaited s args :
  ((exists msg, In (EvLog msg) (fst (Execute w s args)))
   <-> In EvAwait (fst (Execute w s args)))
  /\ (forall msg url,
        In (EvLog msg) (fst (Execute w s args)) ->
        In (EvOpen url) (fst (Execute w s args)) ->
        msg = ["serving docs at"; url]).
Proof.
  pose proof (Execute_Run w s args) as HR. split.
  - destruct HR; unfold startupEvents, expandEvents;
      destruct (Flatten s); cbn [app In];
      (split; [intros [msg Hin]; decompose [or] Hin | intros Hin; decompose [or] Hin]);
      try discriminate; try contradiction; eauto 12.
  - intros msg url Hlog Hopen.
    destruct (Run_log _ _ _ _ _ _ HR Hlog) as (b & l & sh & sp & Hst & ->).
    destruct (Run_open _ _ _ _ _ _ HR Hopen)
      as (_ & b' & l' & sh' & sp' & Hst' & -> & _).
    now destruct (Started_fun _ _ _ _ _ _ _ _ _ _ _ Hst Hst') as (<- & <- & <- & <-).
Qed.

End Order.

(** * The chain in every configuration *)

Section Chain.




End Chain.

(** * Paths under a rooted base path *)

Section Paths.

Import path.

Lemma keeps_root_cons c out : keeps_root out -> keeps_root (c :: out).
Proof. intros [pre ->]. now exists (c :: pre). Qed.

Lemma keeps_root_tail c out :
  keeps_root (c :: out) -> out <> [] -> keeps_root out.
Proof.
  intros [pre H] Hne. destruct pre as [|x pre].
  - injection H as _ ->. contradiction.
  - injection H as _ ->. now exists pre.
Qed.

Lemma backtrack_keeps_root out :
  forall w1, List.length out = S w1 -> (1 <= w1)%nat ->
  keeps_root out -> keeps_root (backtrack out w1 1).
Proof.
  induction out as [|c out IH]; intros w1 Hlen Hw Hroot; [discriminate|].
  cbn [backtrack]. injection Hlen as Hlen.
  assert (Hne : out <> []) by (destruct out; [simpl in Hlen; lia | discriminate]).
  pose proof (keeps_root_tail _ _ Hroot Hne) as Hroot'.
  destruct ((1 <? w1)%nat && negb (Ascii.eqb c slash)) eqn:E; [|exact Hroot'].
  apply andb_true_iff in E as [E _]. apply Nat.ltb_lt in E.
  apply IH; [lia | lia | exact Hroot'].
Qed.

Lemma copy_element_keeps_root p :
  forall out, keeps_root out -> keeps_root (snd (copy_element p out)).
Proof.
  induction p as [|c p IH]; intros out Hroot; cbn [copy_element]; [exact Hroot|].
  destruct (Ascii.eqb c slash); [exact Hroot|].
  apply IH. now apply keeps_root_cons.
Qed.

Lemma clean_loop_keeps_root fuel :
  forall p out, keeps_root out -> keeps_root (clean_loop fuel true p out 1).
Proof.
  induction fuel as [|fuel IH]; intros p out Hroot; cbn [clean_loop];
    [exact Hroot|].
  destruct p as [|c p1]; [exact Hroot|].
  destruct (Ascii.eqb c slash); [now apply IH|].
  destruct (Ascii.eqb c dot && _); [now apply IH|].
  destruct (Ascii.eqb c dot && _).
  - cbn [negb]. destruct (1 <? List.length out)%nat eqn:E; [|now apply IH].
    apply Nat.ltb_lt in E. apply IH.
    apply backtrack_keeps_root; [lia | lia | exact Hroot].
  - cbn [andb negb orb].
    pose proof (copy_element_keeps_root (c :: p1)) as Hcopy.
    destruct (negb (List.length out =? 1)%nat); cbn [andb negb orb].
    + specialize (Hcopy (slash :: out) (keeps_root_cons _ _ Hroot)).
      destruct (copy_element (c :: p1) (slash :: out)) as [p' out2].
      now apply IH.
    + specialize (Hcopy out Hroot).
      destruct (copy_element (c :: p1) out) as [p' out2].
      now apply IH.
Qed.

Lemma Clean_rooted p0 :
  strings.head_is "/" p0 = true -> strings.head_is "/" (Clean p0) = true.
Proof.
  destruct p0 as [|c0 rest]; [discriminate|].
  cbn [strings.head_is]. intros Hc. unfold Clean. fold slash in Hc |- *.
  rewrite Hc.
  destruct (clean_loop_keeps_root
              (List.length (list_ascii_of_string (String c0 rest)))
              (tl (list_ascii_of_string (String c0 rest))) [slash])
    as [pre Hout]; [now exists []|].
  rewrite Hout.
  assert (Hm : forall l : lazybuf, l <> [] ->
               match l with
               | [] => "."
               | _ :: _ => string_of_list_ascii (List.rev l)
               end = string_of_list_ascii (List.rev l))
    by (intros [|x l] Hl; congruence).
  rewrite Hm by (destruct pre; discriminate).
  rewrite rev_app_distr. reflexivity.
Qed.

Lemma Join_rooted bp x :
  strings.head_is "/" bp = true -> strings.head_is "/" (Join [bp; x]) = true.
Proof.
  destruct bp as [|c bp]; [discriminate|]. intros Hc.
  unfold Join. cbn [fold_right String.length Nat.add Nat.eqb].
  cbn [join_buf String.eqb negb orb String.append].
  apply Clean_rooted. exact Hc.
Qed.

Lemma basePath_of_rooted s :
  BasePath s = "" \/ strings.head_is "/" (BasePath s) = true ->
  strings.head_is "/" (basePath_of s) = true.
Proof.
  unfold basePath_of. intros [-> | H]; [reflexivity|].
  destruct (String.eqb (BasePath s) ""); [reflexivity | exact H].
Qed.

Lemma head_is_String c s :
  strings.head_is c s = true -> exists rest, s = String c rest.
Proof.
  destruct s as [|a s]; [discriminate|]. cbn [strings.head_is].
  intros H. apply Ascii.eqb_eq in H. subst a. eauto.
Qed.

(** X10. When [--base-path] is empty or starts with a slash, the document
    route and the UI route start with a slash, and with the UI on and
    flavor [redoc] or [swagger] the visit URL is [http://host:port/...]:
    the slash after the port comes from the base path. *)
Theorem rooted_base_path_gives_rooted_routes s b sh sp :
  BasePath s = "" \/ strings.head_is "/" (BasePath s) = true ->
  strings.head_is "/" (spec_route (basePath_of s)) = true
  /\ strings.head_is "/" (ui_route (basePath_of s) (Path s)) = true
  /\ (NoUI s = false -> Flavor s = "redoc" \/ Flavor s = "swagger" ->
      exists rest,
        snd (compose s b sh sp)
        = "http://" ++ sh ++ ":" ++ strconv.Itoa sp ++ String "/" rest).
Proof.
  intros Hbp. apply basePath_of_rooted in Hbp.
  split; [now apply Join_rooted|]. split; [now apply Join_rooted|].
  intros HnoUI [Hf|Hf].
  - rewrite (compose_redoc _ _ _ _ HnoUI Hf). cbn [snd]. unfold visitURL.
    destruct (head_is_String _ _ (Join_rooted _ "docs" Hbp)) as [rest ->]. eauto.
  - rewrite (compose_swagger _ _ _ _ HnoUI Hf). cbn [snd]. unfold visitURL.
    destruct (head_is_String _ _ (Join_rooted _ (Path s) Hbp)) as [rest ->]. eauto.
Qed.

End Paths.

(** * The listen address *)

Section ListenAddress.

Import strconv.

Lemma append_snoc a c x : (a ++ String c "") ++ x = a ++ String c x.
Proof.
  induction a as [|y a IH]; cbn [String.append]; [reflexivity | now rewrite IH].
Qed.

Lemma length_append a b :
  String.length (a ++ b) = (String.length a + String.length b)%nat.
Proof.
  induction a as [|y a IH]; cbn [String.append String.length Nat.add];
    [reflexivity | now rewrite IH].
Qed.

Lemma split_first_app c h p :
  strings.contains_byte c h = false ->
  strings.split_first c (h ++ String c p) = Some (h, p).
Proof.
  induction h as [|x h IH];
    cbn [String.append strings.split_first strings.contains_byte].
  - now rewrite Ascii.eqb_refl.
  - destruct (Ascii.eqb x c); [discriminate|]. intros H. now rewrite IH.
Qed.

(** [Atoi] reads back what [Itoa] prints, for every [int]. *)
Lemma Atoi_Itoa_int n : minInt <= n <= maxInt -> Atoi (Itoa n) = Some n.
Proof.
  intros Hn. destruct (Z.ltb_spec n 0) as [Hneg|Hpos];
    [|apply Atoi_Itoa; lia].
  unfold Itoa. apply Z.ltb_lt in Hneg as Hb. rewrite Hb. unfold format_uint.
  assert (Hm : 0 <= - n < 10 ^ Z.of_nat 19)
    by (unfold minInt in Hn; simpl; lia).
  destruct (format_digits_head 18 (- n) "" Hm) as (d & rest & Hd & Hhead).
  destruct (parse_format_digits 18 (- n) "" Hm) as [k Hk].
  unfold Atoi. cbn [String.append strings.head_is strings.tail Ascii.eqb
                    Bool.eqb orb].
  rewrite Hhead. cbn [String.eqb]. rewrite <- Hhead, Hk. cbn [parse_digits].
  replace (- (0 * 10 ^ Z.of_nat (S k) + - n)) with n by lia.
  destruct ((minInt <=? n) && (n <=? maxInt)) eqn:R; [reflexivity|].
  apply andb_false_iff in R as [R|R]; apply Z.leb_gt in R; lia.
Qed.

Lemma Itoa_int_bytes c n :
  digit_val c = None -> Ascii.eqb "-" c = false -> minInt <= n ->
  strings.contains_byte c (Itoa n) = false.
Proof.
  intros Hc Hminus Hn. unfold Itoa, format_uint.
  destruct (Z.ltb_spec n 0).
  - cbn [String.append strings.contains_byte]. rewrite Hminus.
    apply format_digits_bytes; [assumption | lia | reflexivity].
  - now apply format_digits_bytes.
Qed.

Lemma Itoa_int_nonempty n : minInt <= n <= maxInt -> Itoa n <> "".
Proof.
  intros Hn E. pose proof (Atoi_Itoa_int n Hn) as H. rewrite E in H. discriminate.
Qed.

(** [net.SplitHostPort] undoes the bracketed form that
    [net.JoinHostPort] gives a host with a colon. *)
Lemma SplitHostPort_brackets host port :
  strings.contains_byte ":" host = true ->
  strings.contains_byte "[" host = false ->
  strings.contains_byte "]" host = false ->
  strings.contains_byte ":" port = false ->
  strings.contains_byte "[" port = false ->
  strings.contains_byte "]" port = false ->
  net.SplitHostPort (net.JoinHostPort host port) = Ok (host, port).
Proof.
  intros Hc Hl Hr Pc Pl Pr. unfold net.JoinHostPort. rewrite Hc.
  change ("[" ++ host ++ "]:" ++ port)
    with (String "[" (host ++ String "]" (String ":" port))).
  unfold net.SplitHostPort.
  assert (Hlast : strings.split_last ":"
                    (String "[" (host ++ String "]" (String ":" port)))
                  = Some (String "[" (host ++ "]"), port)).
  { rewrite <- (split_last_app ":" (String "[" (host ++ "]")) port Pc).
    cbn [String.append]. now rewrite append_snoc. }
  rewrite Hlast. cbn [strings.head_is Ascii.eqb Bool.eqb andb].
  assert (Hfirst : strings.split_first "]"
                     (String "[" (host ++ String "]" (String ":" port)))
                   = Some (String "[" host, String ":" port)).
  { rewrite <- (split_first_app "]" (String "[" host) (String ":" port));
      [reflexivity|].
    cbn [strings.contains_byte Ascii.eqb Bool.eqb andb]. exact Hr. }
  rewrite Hfirst.
  cbn [String.length strings.tail strings.contains_byte Ascii.eqb Bool.eqb andb].
  rewrite !length_append. cbn [String.length].
  destruct (Nat.eqb_spec (S (String.length host) + 1)
              (S (String.length host + S (S (String.length port)))));
    [lia|].
  destruct (Nat.eqb_spec (S (String.length host) + 1)
              (S (String.length host + 1))); [|lia].
  rewrite contains_byte_app, Hl.
  cbn [strings.contains_byte Ascii.eqb Bool.eqb andb orb].
  now rewrite Pl, Pr.
Qed.

(** X11. The address [Execute] asks the listener for splits back into
    the configured host and port: for every host without a bracket (a
    host with a colon is put in brackets and comes back without them) and
    every [int] port, negative ones included. *)
Theorem listen_address_round_trip host port :
  strings.contains_byte "[" host = false ->
  strings.contains_byte "]" host = false ->
  minInt <= port <= maxInt ->
  swag.SplitHostPort (net.JoinHostPort host (Itoa port)) = Ok (host, port).
Proof.
  intros Hl Hr Hp.
  assert (Hsplit : net.SplitHostPort (net.JoinHostPort host (Itoa port))
                   = Ok (host, Itoa port)).
  { destruct (strings.contains_byte ":" host) eqn:Hc;
      [apply SplitHostPort_brackets | apply SplitHostPort_JoinHostPort];
      auto; apply Itoa_int_bytes; auto; apply Hp. }
  unfold swag.SplitHostPort. rewrite Hsplit.
  pose proof (Itoa_int_nonempty _ Hp) as Hne. apply String.eqb_neq in Hne.
  now rewrite Hne, Atoi_Itoa_int.
Qed.

End ListenAddress.

(** * Arguments *)

(** X12. Only the first argument is read: whatever follows it changes
    neither the events nor the result. *)
Theorem extra_arguments_are_ignored {Document Swagger : Type}
    (w : World Document Swagger) s arg rest :
  Execute w s (arg :: rest) = Execute w s [arg].
Proof.
  now rewrite !Execute_unfold.
Qed.

(** ** The further properties at work on [Demo] *)

(** X1 at [serve --doc-url http://example.com/viewer]. *)
Lemma doc_url_is_ignored_with_ui_witness :
  Execute Demo.browser (with_DocURL Demo.defaults "http://example.com/viewer")
          ["petstore.json"]
  = Execute Demo.browser Demo.defaults ["petstore.json"].
Proof.
  exact (doc_url_is_ignored_with_ui Demo.browser Demo.defaults
           "http://example.com/viewer" ["petstore.json"]
           eq_refl (or_introl eq_refl)).
Defined.

(** X2 at [serve --base-path /]. *)
Lemma empty_base_path_is_root_witness :
  Execute Demo.browser (with_BasePath Demo.defaults "/") ["petstore.json"]
  = Execute Demo.browser Demo.defaults ["petstore.json"].
Proof.
  exact (empty_base_path_is_root Demo.browser Demo.defaults ["petstore.json"]
           eq_refl).
Defined.

(** X3 at flavor [rapidoc] with a doc URL. *)
Lemma doc_url_turns_on_swagger_ui_witness :
  ui_routes (fst (compose (Demo.unknownFlavor "http://example.com/viewer")
                          "{}" "localhost" 49152)) = ["/docs"]
  /\ snd (compose (Demo.unknownFlavor "http://example.com/viewer")
                  "{}" "localhost" 49152)
     = "http://localhost:49152/docs".
Proof.
  destruct (doc_url_turns_on_swagger_ui
              (Demo.unknownFlavor "http://example.com/viewer")
              "{}" "localhost" 49152)
    as (_ & Hroutes & Hvisit);
    [reflexivity | discriminate | discriminate |].
  split; [exact Hroutes | exact Hvisit].
Defined.

(** X4 at flavor [rapidoc] without a doc URL. *)
Lemma unknown_flavor_visits_the_empty_URL_witness :
  In (EvOpen "") (fst (Execute Demo.browser (Demo.unknownFlavor "") ["petstore.json"])).
Proof.
  destruct (unknown_flavor_visits_the_empty_URL
              Demo.browser (Demo.unknownFlavor "") ["petstore.json"]
              (net.mkListener (net.mkTCPAddr "0.0.0.0" 49152))
              (CORS (Spec "/" "  {swagger:petstore.json}" NotFoundHandler))
              true)
    as (_ & Hopen & _);
    [reflexivity | discriminate | discriminate | reflexivity
    | vm_compute; tauto |].
  exact (Hopen eq_refl).
Defined.

(** X5 at [serve] with the defaults. *)
Lemma steps_follow_the_program_order_witness :
  (exists l h,
     In (EvServe l h true)
        [EvLoad "petstore.json"; EvMarshal "" "  "; EvListen "tcp4" "0.0.0.0:0";
         EvServe (net.mkListener (net.mkTCPAddr "0.0.0.0" 49152))
                 (fst (compose Demo.defaults "  {swagger:petstore.json}"
                               "localhost" 49152))
                 true])
  /\ forall ev,
       In ev [EvLog ["serving docs at"; "http://localhost:49152/docs"]; EvAwait] ->
       ev = EvAwait \/ exists msg, ev = EvLog msg.
Proof.
  destruct (steps_follow_the_program_order
              Demo.browser Demo.defaults ["petstore.json"]) as [_ Horder].
  destruct (Horder
              [EvLoad "petstore.json"; EvMarshal "" "  "; EvListen "tcp4" "0.0.0.0:0";
               EvServe (net.mkListener (net.mkTCPAddr "0.0.0.0" 49152))
                       (fst (compose Demo.defaults "  {swagger:petstore.json}"
                                     "localhost" 49152))
                       true]
              "http://localhost:49152/docs"
              [EvLog ["serving docs at"; "http://localhost:49152/docs"]; EvAwait]
              eq_refl)
    as (Hserve & _ & Hpost).
  split; [exact Hserve | exact Hpost].
Defined.

(** X6 at [serve -F swagger --host 127.0.0.1 -p 8080 --flatten]. *)
Lemma bound_listener_is_served_witness :
  In (EvServe (net.mkListener (net.mkTCPAddr "127.0.0.1" 8080))
              (fst (compose Demo.swaggerui "  expanded{swagger:petstore.json}"
                            "127.0.0.1" 8080))
              true)
     (fst (Execute Demo.browser Demo.swaggerui ["petstore.json"])).
Proof.
  refine (proj1 (bound_listener_is_served
                   Demo.browser Demo.swaggerui ["petstore.json"]
                   "expanded{swagger:petstore.json}"
                   "  expanded{swagger:petstore.json}"
                   (net.mkListener (net.mkTCPAddr "127.0.0.1" 8080)) _ _ _)).
  - exists "petstore.json", [], "{swagger:petstore.json}". repeat split.
  - reflexivity.
  - unfold tcp4; cbn. repeat split; try reflexivity; lia.
Defined.


(** X8 at [serve] with the defaults: the line is logged, so the server
    is awaited. *)
Lemma logged_iff_awaited_witness :
  In EvAwait (fst (Execute Demo.browser Demo.defaults ["petstore.json"])).
Proof.
  apply (proj1 (proj1 (logged_iff_awaited
                         Demo.browser Demo.defaults ["petstore.json"]))).
  exists ["serving docs at"; "http://localhost:49152/docs"].
  vm_compute. tauto.
Defined.


(** X10 at [serve -F swagger --base-path /api --path ui]. *)
Lemma rooted_base_path_gives_rooted_routes_witness :
  strings.head_is "/" (spec_route (basePath_of Demo.swaggerui)) = true
  /\ strings.head_is "/" (ui_route (basePath_of Demo.swaggerui) (Path Demo.swaggerui))
     = true.
Proof.
  destruct (rooted_base_path_gives_rooted_routes
              Demo.swaggerui "{}" "127.0.0.1" 8080 (or_intror eq_refl))
    as (Hspec & Hui & _).
  split; [exact Hspec | exact Hui].
Defined.

(** X11 at [--host ::1 -p 8080]. *)
Lemma listen_address_round_trip_witness :
  swag.SplitHostPort (net.JoinHostPort "::1" (strconv.Itoa 8080)) = Ok ("::1", 8080).
Proof.
  apply listen_address_round_trip; [reflexivity | reflexivity |].
  unfold strconv.minInt, strconv.maxInt. lia.
Defined.
